(** * focus-session-logger: the POST /sessions intake handler

    A shallow embedding of the request handler of the server module
    (validation, the two simulated media stages, the save to the store)
    and of the [Session] schema, with the properties of the
    specification stated and proved about it.

    The handler is an [async] function with three [await]s.  Between two
    [await]s it runs without interruption, so it is embedded as a
    machine whose states are its suspension points: [post_sessions_start]
    runs the code up to the first [await], and one function per [await]
    runs the code that follows once the awaited promise has settled.
    Writes to the console are left out. *)

From Stdlib Require Import ZArith NArith List String Ascii Bool Lia.
From Stdlib Require Import SpecFloat DecimalString.
Import ListNotations.

Local Open Scope string_scope.
Local Open Scope Z_scope.

(** ** JavaScript values delivered by the JSON body parser *)

Module Js.

(** A JavaScript string is a sequence of UTF-16 code units. *)
Definition JsString := list N.

(** The code units of an ASCII literal. *)
Definition utf16 (s : string) : JsString :=
  map N_of_ascii (list_ascii_of_string s).

(** A failure value: what a rejected promise or a [throw] carries. *)
Definition JsError := string.

(** How the evaluation of an expression completes: with a value, or
    abruptly with a [throw]. *)
Inductive Completion (A : Type) :=
| Normal (v : A)
| Throw (e : JsError).
Arguments Normal {A} v.
Arguments Throw {A} e.

(** The values [express.json()] can put in a field of [req.body].
    A number is an IEEE value in the representation of [SpecFloat].
    An object or an array is kept as what its conversion to a primitive
    gives: a string (["[object Object]"], or the joined elements of an
    array), or the TypeError thrown when the object, or an element of
    the array, has an own [toString] that cannot be called, as in
    [{"toString": 1}]. *)
Inductive JsValue :=
| JsUndefined
| JsNull
| JsBool (b : bool)
| JsNum (x : spec_float)
| JsStr (s : JsString)
| JsObj (toPrimitive : Completion JsString).

(** [!v] is [negb (truthy v)]: ToBoolean. *)
Definition truthy (v : JsValue) : bool :=
  match v with
  | JsUndefined | JsNull => false
  | JsBool b => b
  | JsNum (S754_zero _) | JsNum S754_nan => false
  | JsNum _ => true
  | JsStr [] => false
  | JsStr _ => true
  | JsObj _ => true
  end.

Definition typeof (v : JsValue) : string :=
  match v with
  | JsUndefined => "undefined"
  | JsNull => "object"
  | JsBool _ => "boolean"
  | JsNum _ => "number"
  | JsStr _ => "string"
  | JsObj _ => "object"
  end.

(** The string held by a value of type string.  The handler reads it only
    behind a [typeof] test, so the default is never observed. *)
Definition stringValue (v : JsValue) : JsString :=
  match v with
  | JsStr s => s
  | _ => []
  end.

(** White space and line terminators, the code units [trim] strips. *)
Definition isWhiteSpace (c : N) : bool :=
  (existsb (N.eqb c)
     [9; 10; 11; 12; 13; 32; 160; 5760; 8232; 8233; 8239; 8287; 12288; 65279]
   || ((8192 <=? c) && (c <=? 8202)))%N.

Fixpoint trimStart (s : JsString) : JsString :=
  match s with
  | c :: s' => if isWhiteSpace c then trimStart s' else s
  | [] => []
  end.

Definition trimEnd (s : JsString) : JsString := rev (trimStart (rev s)).

(** [String.prototype.trim]. *)
Definition trim (s : JsString) : JsString := trimEnd (trimStart s).

(** The decimal digits of an integral Number, as in a template literal. *)
Definition numberToString (z : Z) : JsString :=
  utf16 (NilZero.string_of_int (Z.to_int z)).

(** *** Dates

    The time value of a [Date]: milliseconds since the epoch, or [None]
    for [NaN] (an "Invalid Date"). *)
Definition JsDate := option Z.

Definition maxTimeValue : Z := 8640000000000000.

(** TimeClip on an integral time value. *)
Definition timeClip (t : option Z) : JsDate :=
  match t with
  | Some z => if Z.abs z <=? maxTimeValue then Some z else None
  | None => None
  end.

(** TimeClip on a Number: [NaN] and the infinities give [NaN], so does a
    magnitude above [maxTimeValue]; otherwise the value is truncated
    towards zero. *)
Definition timeClipNumber (x : spec_float) : JsDate :=
  match x with
  | S754_zero _ => Some 0
  | S754_infinity _ | S754_nan => None
  | S754_finite neg m e =>
      let exceeds :=
        if 0 <=? e then maxTimeValue <? Z.pos m * 2 ^ e
        else maxTimeValue * 2 ^ (- e) <? Z.pos m in
      if exceeds then None
      else let magnitude := Z.shiftl (Z.pos m) e in
           Some (if neg then - magnitude else magnitude)
  end.

Section DateConstructor.

(** [Date.parse]: fixed by the language for the ISO format only, left
    to the engine for every other string. *)
Variable Date_parse : JsString -> option Z.

(** [new Date(v)]: an object is first converted to a primitive, which
    can throw; a string is parsed, any other primitive is converted to a
    Number. *)
Definition new_Date (v : JsValue) : Completion JsDate :=
  match v with
  | JsObj (Throw e) => Throw e
  | JsStr s | JsObj (Normal s) => Normal (timeClip (Date_parse s))
  | JsNum x => Normal (timeClipNumber x)
  | JsBool true => Normal (Some 1)
  | JsBool false | JsNull => Normal (Some 0)
  | JsUndefined => Normal None
  end.

End DateConstructor.

(** [isNaN(d.getTime())]. *)
Definition isNaN_getTime (d : JsDate) : bool :=
  match d with Some _ => false | None => true end.

(** [a <= b] on two dates: both are converted to their time values and
    a comparison with [NaN] is false. *)
Definition date_le (a b : JsDate) : bool :=
  match a, b with
  | Some x, Some y => x <=? y
  | _, _ => false
  end.

(** [a - b] on two dates.  The integer is the exact difference; the
    Number JavaScript computes is that integer rounded to a double, and
    since rounding is monotone and 28800000 is a double, comparing
    either with 28800000 gives the same answer. *)
Definition date_sub (a b : JsDate) : option Z :=
  match a, b with
  | Some x, Some y => Some (x - y)
  | _, _ => None
  end.

(** [x > y] for a Number [x] that may be [NaN]. *)
Definition number_gt (x : option Z) (y : Z) : bool :=
  match x with
  | Some z => y <? z
  | None => false
  end.

End Js.
Import Js.

(** ** A [Date.parse] for the concrete scenarios

    It reads the ISO forms [YYYY-MM-DDTHH:mm:ssZ] and
    [YYYY-MM-DDTHH:mm:ss.sssZ], on which every engine agrees, and
    answers [NaN] on every other string.  An engine reads more strings
    than these two forms (a date alone, hour 24, forms of its own); the
    scenarios use none of them, and the theorems hold for every
    [Date.parse]. *)

Module Iso.

Definition digit (c : N) : option Z :=
  if ((48 <=? c) && (c <=? 57))%N then Some (Z.of_N c - 48) else None.

Fixpoint digits (acc : Z) (s : JsString) : option Z :=
  match s with
  | [] => Some acc
  | c :: s' =>
      match digit c with
      | Some d => digits (10 * acc + d) s'
      | None => None
      end
  end.

(** Days between the epoch and a day of the proleptic Gregorian calendar. *)
Definition daysFromCivil (y m d : Z) : Z :=
  let y' := if m <=? 2 then y - 1 else y in
  let era := y' / 400 in
  let yoe := y' - era * 400 in
  let doy := (153 * (if 2 <? m then m - 3 else m + 9) + 2) / 5 + d - 1 in
  let doe := yoe * 365 + yoe / 4 - yoe / 100 + doy in
  era * 146097 + doe - 719468.

(** The time value of the fields of a date, each given by its digits. *)
Definition timeOfFields (year month day hour minute second ms : JsString)
  : option Z :=
  match digits 0 year, digits 0 month, digits 0 day,
        digits 0 hour, digits 0 minute, digits 0 second, digits 0 ms with
  | Some y, Some m, Some d, Some h, Some n, Some sec, Some msec =>
      if (1 <=? m) && (m <=? 12) && (1 <=? d) && (d <=? 31)
         && (h <=? 23) && (n <=? 59) && (sec <=? 59)
      then Some (((daysFromCivil y m d * 24 + h) * 60 + n) * 60000
                 + sec * 1000 + msec)
      else None
  | _, _, _, _, _, _, _ => None
  end.

Definition parse (s : JsString) : option Z :=
  match s with
  | [y1; y2; y3; y4; 45; m1; m2; 45; d1; d2; 84;
     h1; h2; 58; n1; n2; 58; s1; s2; 90]%N =>
      timeOfFields [y1; y2; y3; y4] [m1; m2] [d1; d2]
        [h1; h2] [n1; n2] [s1; s2] []
  | [y1; y2; y3; y4; 45; m1; m2; 45; d1; d2; 84;
     h1; h2; 58; n1; n2; 58; s1; s2; 46; f1; f2; f3; 90]%N =>
      timeOfFields [y1; y2; y3; y4] [m1; m2] [d1; d2]
        [h1; h2] [n1; n2] [s1; s2] [f1; f2; f3]
  | _ => None
  end.

End Iso.

(** ** The Session model (Session.js) *)

Module Session.

(** [media: { compressed, audioExtracted }]. *)
Record Media := {
  compressed : bool;
  audioExtracted : bool
}.

(** The defaults the schema declares for the two flags. *)
Definition media_default : Media :=
  {| compressed := false; audioExtracted := false |}.

(** The fields of the schema; every one of them is supplied by the
    handler, so no default is applied when the document is built. *)
Record Fields := {
  userId : JsString;
  startTime : JsDate;
  endTime : JsDate;
  media : Media;
  createdAt : Z
}.

(** The identifier the store assigns. *)
Definition ObjectId := N.

(** A saved document: the fields and the identifier of the store. *)
Record Document := {
  _id : ObjectId;
  doc : Fields
}.

End Session.

(** [sessionData.media.compressed = true] *)
Definition set_compressed (d : Session.Fields) : Session.Fields :=
  {| Session.userId := Session.userId d;
     Session.startTime := Session.startTime d;
     Session.endTime := Session.endTime d;
     Session.media :=
       {| Session.compressed := true;
          Session.audioExtracted := Session.audioExtracted (Session.media d) |};
     Session.createdAt := Session.createdAt d |}.

(** [sessionData.media.audioExtracted = true] *)
Definition set_audioExtracted (d : Session.Fields) : Session.Fields :=
  {| Session.userId := Session.userId d;
     Session.startTime := Session.startTime d;
     Session.endTime := Session.endTime d;
     Session.media :=
       {| Session.compressed := Session.compressed (Session.media d);
          Session.audioExtracted := true |};
     Session.createdAt := Session.createdAt d |}.

(** ** Requests, responses and the collaborators of the handler *)

(** [req.body] once destructured: a field that is absent reads as
    [undefined]. *)
Record ReqBody := {
  userId : JsValue;
  startTime : JsValue;
  endTime : JsValue
}.

(** [req.body] is [undefined] when no body was parsed. *)
Record Request := {
  body : option ReqBody
}.

(** The four shapes of object the handler passes to [res.json]. *)
Inductive Json :=
| ErrorOnly (error : string)
| ErrorWithSession (error : string) (sessionId : JsString)
    (sessionData : Session.Fields)
| Created (message : string) (sessionId : JsString)
    (databaseId : Session.ObjectId) (sessionData : Session.Document)
| ErrorWithMessage (error message : string).

Record Response := {
  status : Z;
  json : Json
}.

(** How an awaited promise settles. *)
Inductive Settled (A : Type) :=
| Fulfilled (value : A)
| RejectedWith (reason : JsError).
Arguments Fulfilled {A} value.
Arguments RejectedWith {A} reason.

(** What the handler takes from outside: the clock, the random source,
    the two stages of the pipeline and the store.  [Date_now n] is the
    value of the call number [n] of [Date.now()] within the request;
    [compress] and [extractAudio] are the stage slots, bound in the
    source to [simulateVideoCompression] and [simulateAudioExtraction];
    [save] is how [newSession.save()] settles. *)
Record Env := {
  Date_now : nat -> Z;
  Math_random_toString36 : JsString;
  compress : JsString -> Settled bool;
  extractAudio : JsString -> Settled bool;
  save : Session.Fields -> Settled Session.ObjectId
}.

(** The stage of the source: it logs, waits on a timer that always
    fires, logs again and returns [true]. *)
Definition simulateVideoCompression (sessionId : JsString) : Settled bool :=
  Fulfilled true.

Definition simulateAudioExtraction (sessionId : JsString) : Settled bool :=
  Fulfilled true.

(** ** The handler of POST /sessions *)

Section Handler.

Variable Date_parse : JsString -> option Z.

Definition maxDuration : Z := 8 * 60 * 60 * 1000.

(** The validation block: [inl] is the [error] of the 400 response the
    handler returns with, [inr] the two dates it goes on with.  Both
    dates are built before either is looked at, and building one can
    throw. *)
Definition validate (b : ReqBody) : Completion (string + (JsDate * JsDate)) :=
  if negb (truthy (userId b)) || negb (truthy (startTime b))
     || negb (truthy (endTime b))
  then Normal (inl "Missing required fields: userId, startTime, endTime")
  else if negb (typeof (userId b) =? "string")%string
          || (List.length (trim (stringValue (userId b))) =? 0)%nat
  then Normal (inl "userId must be a non-empty string")
  else
    match new_Date Date_parse (startTime b) with
    | Throw e => Throw e
    | Normal startDate =>
        match new_Date Date_parse (endTime b) with
        | Throw e => Throw e
        | Normal endDate =>
            if isNaN_getTime startDate
            then Normal (inl "startTime must be a valid date")
            else if isNaN_getTime endDate
            then Normal (inl "endTime must be a valid date")
            else if date_le endDate startDate
            then Normal (inl "endTime must be after startTime")
            else
              let sessionDuration := date_sub endDate startDate in
              if number_gt sessionDuration maxDuration
              then Normal (inl "Session duration cannot exceed 8 hours")
              else Normal (inr (startDate, endDate))
        end
    end.

(** The points where the handler is suspended on an [await], with the
    local variables that are live there, and its end. *)
Inductive Handler :=
| AwaitCompression (sessionId : JsString) (sessionData : Session.Fields)
| AwaitExtraction (sessionId : JsString) (sessionData : Session.Fields)
| AwaitSave (sessionId : JsString) (sessionData : Session.Fields)
| Responded (res : Response).

(** The response of the outer [catch]. *)
Definition internal_server_error : Response :=
  {| status := 500;
     json := ErrorWithMessage "Internal server error"
       "An unexpected error occurred while processing the session" |}.

(** From the entry of the handler to the call of the compression stage.
    Destructuring an [undefined] body throws, and so can the building of
    a date; the outer [catch] answers both. *)
Definition post_sessions_start (env : Env) (req : Request) : Handler :=
  match body req with
  | None => Responded internal_server_error
  | Some b =>
      match validate b with
      | Throw _ => Responded internal_server_error
      | Normal (inl reason) =>
          Responded {| status := 400; json := ErrorOnly reason |}
      | Normal (inr (startDate, endDate)) =>
          let sessionId :=
            (utf16 "session_" ++ numberToString (Date_now env 0%nat)
               ++ utf16 "_" ++ Math_random_toString36 env)%list in
          let sessionData :=
            {| Session.userId := trim (stringValue (userId b));
               Session.startTime := startDate;
               Session.endTime := endDate;
               Session.media :=
                 {| Session.compressed := false;
                    Session.audioExtracted := false |};
               Session.createdAt := Date_now env 1%nat |} in
          AwaitCompression sessionId sessionData
      end
  end.

(** The response of the [catch] around the pipeline. *)
Definition media_processing_failed (sessionId : JsString)
    (sessionData : Session.Fields) : Response :=
  {| status := 500;
     json := ErrorWithSession "Media processing failed" sessionId sessionData |}.

(** After [await simulateVideoCompression(sessionId)]. *)
Definition after_compression (sessionId : JsString)
    (sessionData : Session.Fields) (o : Settled bool) : Handler :=
  match o with
  | Fulfilled _ => AwaitExtraction sessionId (set_compressed sessionData)
  | RejectedWith _ =>
      Responded (media_processing_failed sessionId sessionData)
  end.

(** After [await simulateAudioExtraction(sessionId)]. *)
Definition after_extraction (sessionId : JsString)
    (sessionData : Session.Fields) (o : Settled bool) : Handler :=
  match o with
  | Fulfilled _ => AwaitSave sessionId (set_audioExtracted sessionData)
  | RejectedWith _ =>
      Responded (media_processing_failed sessionId sessionData)
  end.

(** After [await newSession.save()]. *)
Definition after_save (sessionId : JsString)
    (sessionData : Session.Fields) (o : Settled Session.ObjectId) : Handler :=
  match o with
  | Fulfilled id =>
      let savedSession := {| Session._id := id; Session.doc := sessionData |} in
      Responded
        {| status := 201;
           json := Created "Session created, processed, and saved successfully"
                     sessionId (Session._id savedSession) savedSession |}
  | RejectedWith _ =>
      Responded
        {| status := 500;
           json := ErrorWithSession "Failed to save session to database"
                     sessionId sessionData |}
  end.

(** One step of the handler: the awaited promise settles in some way. *)
Inductive step : Handler -> Handler -> Prop :=
| step_compression sessionId sessionData o :
    step (AwaitCompression sessionId sessionData)
         (after_compression sessionId sessionData o)
| step_extraction sessionId sessionData o :
    step (AwaitExtraction sessionId sessionData)
         (after_extraction sessionId sessionData o)
| step_save sessionId sessionData o :
    step (AwaitSave sessionId sessionData)
         (after_save sessionId sessionData o).

(** The states an execution of the handler on [req] can be in. *)
Inductive reachable (env : Env) (req : Request) : Handler -> Prop :=
| reachable_start : reachable env req (post_sessions_start env req)
| reachable_step h h' :
    reachable env req h -> step h h' -> reachable env req h'.

(** The step taken when the collaborators are those of [env]. *)
Definition advance (env : Env) (h : Handler) : Handler :=
  match h with
  | AwaitCompression sessionId sessionData =>
      after_compression sessionId sessionData (compress env sessionId)
  | AwaitExtraction sessionId sessionData =>
      after_extraction sessionId sessionData (extractAudio env sessionId)
  | AwaitSave sessionId sessionData =>
      after_save sessionId sessionData (save env sessionData)
  | Responded res => Responded res
  end.

(** The handler has three [await]s, so three steps bring it to its end. *)
Definition post_sessions (env : Env) (req : Request) : Handler :=
  advance env (advance env (advance env (post_sessions_start env req))).

(** The states the handler goes through, up to its response. *)
Fixpoint run (env : Env) (fuel : nat) (h : Handler) : list Handler :=
  h :: match h, fuel with
       | Responded _, _ => []
       | _, O => []
       | _, S fuel' => run env fuel' (advance env h)
       end.

Definition execution (env : Env) (req : Request) : list Handler :=
  run env 3 (post_sessions_start env req).


Definition extraction_runs (h : Handler) : bool :=
  match h with
  | AwaitExtraction _ _ => true
  | _ => false
  end.

(** The store has been asked to write. *)
Definition store_write (h : Handler) : bool :=
  match h with
  | AwaitSave _ _ => true
  | _ => false
  end.

(** The record the handler holds in a state, if it has built one. *)
Definition record_of (h : Handler) : option Session.Fields :=
  match h with
  | AwaitCompression _ d | AwaitExtraction _ d | AwaitSave _ d => Some d
  | Responded {| json := ErrorWithSession _ _ d |} => Some d
  | Responded {| json := Created _ _ _ saved |} => Some (Session.doc saved)
  | Responded _ => None
  end.

(** The identifier of the store carried by a response body. *)
Definition databaseId_of (j : Json) : option Session.ObjectId :=
  match j with
  | Created _ _ databaseId _ => Some databaseId
  | _ => None
  end.

End Handler.

(** ** The validation rules and the outcomes, as the specification words them *)

Section Specification.

Variable Date_parse : JsString -> option Z.

(** The six rules of the Validator. *)
Inductive Rule :=
| FieldsPresent
| UserIdText
| StartTimeParses
| EndTimeParses
| EndAfterStart
| DurationWithinLimit.

(** The order in which the rules are to be checked. *)
Definition rules_in_order : list Rule :=
  [FieldsPresent; UserIdText; StartTimeParses; EndTimeParses;
   EndAfterStart; DurationWithinLimit].

Definition rank (r : Rule) : nat :=
  match r with
  | FieldsPresent => 0
  | UserIdText => 1
  | StartTimeParses => 2
  | EndTimeParses => 3
  | EndAfterStart => 4
  | DurationWithinLimit => 5
  end.

(** What each rule asks of an input, taken on its own.  Presence of a
    field is its truthiness; a time parses when building its date gives
    a valid date; a rule on two times asks that both parse. *)
Definition satisfied (b : ReqBody) (r : Rule) : bool :=
  match r with
  | FieldsPresent =>
      truthy (userId b) && truthy (startTime b) && truthy (endTime b)
  | UserIdText =>
      match userId b with
      | JsStr s => match trim s with [] => false | _ :: _ => true end
      | _ => false
      end
  | StartTimeParses =>
      match new_Date Date_parse (startTime b) with
      | Normal (Some _) => true
      | _ => false
      end
  | EndTimeParses =>
      match new_Date Date_parse (endTime b) with
      | Normal (Some _) => true
      | _ => false
      end
  | EndAfterStart =>
      match new_Date Date_parse (startTime b),
            new_Date Date_parse (endTime b) with
      | Normal (Some s), Normal (Some e) => s <? e
      | _, _ => false
      end
  | DurationWithinLimit =>
      match new_Date Date_parse (startTime b),
            new_Date Date_parse (endTime b) with
      | Normal (Some s), Normal (Some e) => e - s <=? 28800000
      | _, _ => false
      end
  end.

(** The reason string of each rule. *)
Definition reason (r : Rule) : string :=
  match r with
  | FieldsPresent => "Missing required fields: userId, startTime, endTime"
  | UserIdText => "userId must be a non-empty string"
  | StartTimeParses => "startTime must be a valid date"
  | EndTimeParses => "endTime must be a valid date"
  | EndAfterStart => "endTime must be after startTime"
  | DurationWithinLimit => "Session duration cannot exceed 8 hours"
  end.

(** First violation wins. *)
Definition first_violated (b : ReqBody) : option Rule :=
  find (fun r => negb (satisfied b r)) rules_in_order.

(** The date a construction gave, if it gave one. *)
Definition date_built (c : Completion JsDate) : JsDate :=
  match c with
  | Normal d => d
  | Throw _ => None
  end.

(** The Validator of the specification: the reason of the first rule
    violated, or the two times. *)
Definition spec_validate (b : ReqBody) : string + (JsDate * JsDate) :=
  match first_violated b with
  | Some r => inl (reason r)
  | None =>
      inr (date_built (new_Date Date_parse (startTime b)),
           date_built (new_Date Date_parse (endTime b)))
  end.

(** What is thrown while the two dates are built, if anything: the
    start time is converted first. *)
Definition conversion_fault (b : ReqBody) : option JsError :=
  match new_Date Date_parse (startTime b) with
  | Throw e => Some e
  | Normal _ =>
      match new_Date Date_parse (endTime b) with
      | Throw e => Some e
      | Normal _ => None
      end
  end.

(** The terminal states of the orchestrator, and the one an unexpected
    fault leads to. *)
Inductive Outcome :=
| Rejected
| ProcessingFailed
| PersistenceFailed
| InternalFailure
| Persisted.

(** The terminal state an execution ends in: decided by whether a body
    was delivered, by whether the validation block threw, by the
    Validator, and by how the stages and the save settle. *)
Definition outcome (env : Env) (req : Request) : Outcome :=
  match body req with
  | None => InternalFailure
  | Some b =>
      match post_sessions_start Date_parse env req with
      | AwaitCompression sessionId sessionData =>
          match compress env sessionId with
          | RejectedWith _ => ProcessingFailed
          | Fulfilled _ =>
              match extractAudio env sessionId with
              | RejectedWith _ => ProcessingFailed
              | Fulfilled _ =>
                  match save env
                          (set_audioExtracted (set_compressed sessionData)) with
                  | RejectedWith _ => PersistenceFailed
                  | Fulfilled _ => Persisted
                  end
              end
          end
      | _ =>
          match validate Date_parse b with
          | Throw _ => InternalFailure
          | Normal _ => Rejected
          end
      end
  end.

(** The status category of a response: the hundreds of its status. *)
Definition status_category (res : Response) : Z := status res / 100.

End Specification.

(** ** Predicates on executions *)

(** The awaited promise is fulfilled. *)
Definition is_fulfilled {A : Type} (o : Settled A) : bool :=
  match o with
  | Fulfilled _ => true
  | RejectedWith _ => false
  end.

(** The two flags of a record. *)
Definition flags (d : Session.Fields) : bool * bool :=
  (Session.compressed (Session.media d),
   Session.audioExtracted (Session.media d)).

(** [audioExtracted] only together with [compressed]. *)
Definition flags_ordered (d : Session.Fields) : Prop :=
  Session.audioExtracted (Session.media d) = true ->
  Session.compressed (Session.media d) = true.

(** What the flags are at each point of the handler: none before the
    compression has completed, [compressed] alone while the extraction
    runs, both once it has completed; a failure response carries one of
    these three, the success response the last. *)
Definition progress (h : Handler) : Prop :=
  match h with
  | AwaitCompression _ d => flags d = (false, false)
  | AwaitExtraction _ d => flags d = (true, false)
  | AwaitSave _ d => flags d = (true, true)
  | Responded {| json := ErrorWithSession _ _ d |} =>
      flags d = (false, false) \/ flags d = (true, false)
      \/ flags d = (true, true)
  | Responded {| json := Created _ _ _ saved |} =>
      flags (Session.doc saved) = (true, true)
  | Responded _ => True
  end.

(** Two records that differ at most in their flags. *)
Definition same_session (d d' : Session.Fields) : Prop :=
  Session.userId d' = Session.userId d
  /\ Session.startTime d' = Session.startTime d
  /\ Session.endTime d' = Session.endTime d
  /\ Session.createdAt d' = Session.createdAt d.

(** The response of a handler that has come to its end. *)
Definition response_of (h : Handler) : option Response :=
  match h with
  | Responded res => Some res
  | _ => None
  end.

(** ** Concrete collaborators and inputs *)

Module Scenario.

(** The stages of the source and a store that accepts every record. *)
Definition env_ok : Env :=
  {| Date_now := fun n => 1704190000000 + Z.of_nat n;
     Math_random_toString36 := utf16 "0.4fzyo82mvyr";
     compress := simulateVideoCompression;
     extractAudio := simulateAudioExtraction;
     save := fun _ => Fulfilled 77%N |}.

Definition env_compress_fails : Env :=
  {| Date_now := Date_now env_ok;
     Math_random_toString36 := Math_random_toString36 env_ok;
     compress := fun _ => RejectedWith "ffmpeg exited with code 1";
     extractAudio := simulateAudioExtraction;
     save := save env_ok |}.

Definition env_extract_fails : Env :=
  {| Date_now := Date_now env_ok;
     Math_random_toString36 := Math_random_toString36 env_ok;
     compress := simulateVideoCompression;
     extractAudio := fun _ => RejectedWith "ffmpeg exited with code 1";
     save := save env_ok |}.

Definition env_save_fails : Env :=
  {| Date_now := Date_now env_ok;
     Math_random_toString36 := Math_random_toString36 env_ok;
     compress := simulateVideoCompression;
     extractAudio := simulateAudioExtraction;
     save := fun _ => RejectedWith "connection refused" |}.

Definition input (u s e : string) : ReqBody :=
  {| userId := JsStr (utf16 u);
     startTime := JsStr (utf16 s);
     endTime := JsStr (utf16 e) |}.

Definition alice : ReqBody :=
  input "alice" "2024-01-01T10:00:00Z" "2024-01-01T12:00:00Z".

Definition empty_userId : ReqBody :=
  input "" "2024-01-01T10:00:00Z" "2024-01-01T12:00:00Z".

Definition eight_hours : ReqBody :=
  input "alice" "2024-01-01T10:00:00Z" "2024-01-01T18:00:00Z".

Definition eight_hours_and_1ms : ReqBody :=
  input "alice" "2024-01-01T10:00:00Z" "2024-01-01T18:00:00.001Z".

Definition nine_hours : ReqBody :=
  input "alice" "2024-01-01T10:00:00Z" "2024-01-01T19:00:00Z".

Definition end_before_start : ReqBody :=
  input "alice" "2024-01-01T12:00:00Z" "2024-01-01T10:00:00Z".

(** [startTime] is the number 0. *)
Definition zero_startTime : ReqBody :=
  {| userId := JsStr (utf16 "alice");
     startTime := JsNum (S754_zero false);
     endTime := JsStr (utf16 "2024-01-01T12:00:00Z") |}.


(** [startTime] does not parse and [endTime] is [{"toString": 1}]. *)
Definition invalid_start_faulty_end : ReqBody :=
  {| userId := JsStr (utf16 "alice");
     startTime := JsStr (utf16 "x");
     endTime := JsObj (Throw "TypeError: Cannot convert object to primitive value") |}.

Definition post (b : ReqBody) : Request := {| body := Some b |}.

Definition no_body : Request := {| body := None |}.

End Scenario.

(** A string that is empty or starts with something else than white
    space. *)
Definition starts_clean (s : JsString) : Prop :=
  match s with
  | [] => True
  | c :: _ => isWhiteSpace c = false
  end.

(** The session record of the data model: a userId that is not empty and
    has no white space around it, two valid times with the end strictly
    after the start and at most eight hours later, and the second
    reading of the clock as time of creation. *)
Definition valid_record (env : Env) (req : Request) (d : Session.Fields) : Prop :=
  exists b s e,
    body req = Some b
    /\ Session.userId d = trim (stringValue (userId b))
    /\ Session.userId d <> []
    /\ trim (Session.userId d) = Session.userId d
    /\ Session.startTime d = Some s
    /\ Session.endTime d = Some e
    /\ s < e /\ e - s <= 28800000
    /\ Session.createdAt d = Date_now env 1%nat.

(** Every record a state of the handler holds is valid. *)
Definition holds_valid_record (env : Env) (req : Request) (h : Handler) : Prop :=
  forall d, record_of h = Some d -> valid_record env req d.

(** ** What the schema requires (Session.js) *)

(** The three paths declared [required: true]: a String path is refused
    when it is the empty text, a Date path when it holds no valid date. *)
Definition SessionSchema_required (d : Session.Fields) : bool :=
  match Session.userId d, Session.startTime d, Session.endTime d with
  | _ :: _, Some _, Some _ => true
  | _, _, _ => false
  end.

(** The [sessionId] key of a response body. *)
Definition sessionId_of (j : Json) : option JsString :=
  match j with
  | ErrorWithSession _ sessionId _ | Created _ sessionId _ _ => Some sessionId
  | ErrorOnly _ | ErrorWithMessage _ _ => None
  end.

(** The [error] key of a response body. *)
Definition error_of (j : Json) : option string :=
  match j with
  | ErrorOnly error | ErrorWithSession error _ _ | ErrorWithMessage error _ =>
      Some error
  | Created _ _ _ _ => None
  end.

(** ** The application: its layers in the order they are registered *)

Module App.

(** [app.use(express.json())], [app.post('/sessions', ...)], the error
    handling middleware and the 404 handler. *)
Inductive Layer :=
| use_express_json
| post_sessions_route
| use_error_handler
| use_not_found.

Definition layers : list Layer :=
  [use_express_json; post_sessions_route; use_error_handler; use_not_found].

(** What [express.json()] makes of the payload of a request: it fails
    and passes its error on, or it leaves [req.body] set to an object or
    [undefined]. *)
Inductive Payload :=
| Malformed
| Parsed (body : option ReqBody).

Record Incoming := {
  method : JsString;
  originalUrl : JsString;
  payload : Payload
}.

(** The bodies the application sends: those of the session handler and
    of the error middleware, and the one of the 404 handler, whose
    message is built from the request. *)
Inductive AppJson :=
| Plain (j : Json)
| NotFound (error : string) (message : JsString).

Record AppResponse := {
  app_status : Z;
  app_json : AppJson
}.

(** Where a request stands between two layers: on its way with
    [req.body] as it is, on its way with an error, answered, or taken by
    a handler that never answers. *)
Inductive Pass :=
| Next (body : option ReqBody)
| NextError
| Sent (res : AppResponse)
| Unanswered.

(** [===] on two strings. *)
Fixpoint strict_equal (a b : JsString) : bool :=
  match a, b with
  | [], [] => true
  | x :: a', y :: b' => (x =? y)%N && strict_equal a' b'
  | _, _ => false
  end.

(** The response of the error handling middleware. *)
Definition global_error_handler : AppResponse :=
  {| app_status := 500;
     app_json :=
       Plain (ErrorWithMessage "Internal server error"
                "Something went wrong on the server") |}.

(** The response of the 404 handler. *)
Definition not_found (req : Incoming) : AppResponse :=
  {| app_status := 404;
     app_json :=
       NotFound "Not found"
         (utf16 "Route " ++ method req ++ utf16 " " ++ originalUrl req
            ++ utf16 " not found")%list |}.

Section Dispatch.

Variable Date_parse : JsString -> option Z.

(** Whether the router matches the URL of a request against the path
    ['/sessions']. *)
Variable route_matches : JsString -> bool.

Variable env : Env.

(** One layer.  A middleware with four parameters runs only when an
    error is on its way, every other layer only when none is; the route
    runs only for its method and path; a layer that answers ends the
    chain. *)
Definition run_layer (req : Incoming) (l : Layer) (p : Pass) : Pass :=
  match p with
  | Sent _ | Unanswered => p
  | NextError =>
      match l with
      | use_error_handler => Sent global_error_handler
      | _ => NextError
      end
  | Next reqBody =>
      match l with
      | use_express_json =>
          match payload req with
          | Malformed => NextError
          | Parsed b => Next b
          end
      | post_sessions_route =>
          if strict_equal (method req) (utf16 "POST")
             && route_matches (originalUrl req)
          then
            match response_of
                    (post_sessions Date_parse env {| body := reqBody |}) with
            | Some res =>
                Sent {| app_status := status res; app_json := Plain (json res) |}
            | None => Unanswered
            end
          else Next reqBody
      | use_error_handler => Next reqBody
      | use_not_found => Sent (not_found req)
      end
  end.

(** A request through the layers of the application. *)
Definition serve (req : Incoming) : Pass :=
  fold_left (fun p l => run_layer req l p) layers (Next None).

End Dispatch.

End App.

(** Requests to the application, and a router that matches the URL
    ["/sessions"] and no other.  The router of the framework also
    matches that path with a trailing slash, in another case or followed
    by a query string; the scenarios use none of these, and the theorems
    hold for every matcher. *)
Module AppScenario.

Definition only_sessions (url : JsString) : bool :=
  App.strict_equal url (utf16 "/sessions").

Definition post_alice : App.Incoming :=
  {| App.method := utf16 "POST";
     App.originalUrl := utf16 "/sessions";
     App.payload := App.Parsed (Some Scenario.alice) |}.

Definition get_sessions : App.Incoming :=
  {| App.method := utf16 "GET";
     App.originalUrl := utf16 "/sessions";
     App.payload := App.Parsed (Some Scenario.alice) |}.

Definition malformed_get : App.Incoming :=
  {| App.method := utf16 "GET";
     App.originalUrl := utf16 "/health";
     App.payload := App.Malformed |}.

Definition padded_alice : ReqBody :=
  Scenario.input "  alice " "2024-01-01T10:00:00Z" "2024-01-01T12:00:00Z".

Definition same_instant : ReqBody :=
  Scenario.input "alice" "2024-01-01T10:00:00Z" "2024-01-01T10:00:00Z".

Definition numeric_userId : ReqBody :=
  {| userId := JsNum (S754_finite false 21 1);
     startTime := JsStr (utf16 "2024-01-01T10:00:00Z");
     endTime := JsStr (utf16 "2024-01-01T12:00:00Z") |}.

End AppScenario.

(** ** Properties of the validation block *)

Section ValidationProperties.

Variable Date_parse : JsString -> option Z.

Lemma maxDuration_value : maxDuration = 28800000.
Proof. reflexivity. Qed.

Lemma length_zero_iff_nil (s : JsString) :
  (List.length s =? 0)%nat = match s with [] => true | _ :: _ => false end.
Proof. destruct s; reflexivity. Qed.

(** The test on [userId] of the handler is the negation of the rule. *)
Lemma userId_test_spec (b : ReqBody) :
  negb (typeof (userId b) =? "string")%string
  || (List.length (trim (stringValue (userId b))) =? 0)%nat
  = negb (satisfied Date_parse b UserIdText).
Proof.
  unfold satisfied.
  destruct (userId b) as [| |x|x|s|s]; try reflexivity.
  cbn [typeof stringValue].
  rewrite length_zero_iff_nil.
  destruct (trim s); reflexivity.
Qed.

(** The validation block computes what the ordered rules prescribe,
    unless the first two rules hold and building a date throws. *)
Lemma validate_refines (b : ReqBody) :
  validate Date_parse b =
  match conversion_fault Date_parse b with
  | Some e =>
      if satisfied Date_parse b FieldsPresent
         && satisfied Date_parse b UserIdText
      then Throw e
      else Normal (spec_validate Date_parse b)
  | None => Normal (spec_validate Date_parse b)
  end.
Proof.
  unfold validate, spec_validate, first_violated, rules_in_order,
    conversion_fault.
  rewrite userId_test_spec.
  cbn [find].
  replace (negb (truthy (userId b)) || negb (truthy (startTime b))
           || negb (truthy (endTime b)))
    with (negb (satisfied Date_parse b FieldsPresent))
    by (cbn [satisfied];
        destruct (truthy (userId b)), (truthy (startTime b)),
          (truthy (endTime b)); reflexivity).
  destruct (satisfied Date_parse b FieldsPresent); cbn [negb andb].
  2:{ destruct (new_Date Date_parse (startTime b)); [|reflexivity].
      destruct (new_Date Date_parse (endTime b)); reflexivity. }
  destruct (satisfied Date_parse b UserIdText); cbn [negb].
  2:{ destruct (new_Date Date_parse (startTime b)); [|reflexivity].
      destruct (new_Date Date_parse (endTime b)); reflexivity. }
  cbn [satisfied].
  destruct (new_Date Date_parse (startTime b)) as [[s|]|e1];
    [| |reflexivity].
  2:{ destruct (new_Date Date_parse (endTime b)); reflexivity. }
  destruct (new_Date Date_parse (endTime b)) as [[e|]|e2];
    cbn [isNaN_getTime negb date_built]; [|reflexivity|reflexivity].
  cbn [date_le date_sub number_gt].
  rewrite maxDuration_value.
  destruct (Z.leb_spec e s) as [Hle|Hlt].
  - replace (s <? e) with false by (symmetry; apply Z.ltb_ge; exact Hle).
    reflexivity.
  - replace (s <? e) with true by (symmetry; apply Z.ltb_lt; exact Hlt).
    cbn [negb].
    destruct (Z.ltb_spec 28800000 (e - s)) as [Hgt|Hok].
    + replace (e - s <=? 28800000) with false
        by (symmetry; apply Z.leb_gt; exact Hgt).
      reflexivity.
    + replace (e - s <=? 28800000) with true
        by (symmetry; apply Z.leb_le; exact Hok).
      reflexivity.
Qed.

(** The validation block either follows the rules or throws, and it
    throws only when the first two rules hold. *)
Lemma validate_cases (b : ReqBody) :
  validate Date_parse b = Normal (spec_validate Date_parse b)
  \/ exists e,
       validate Date_parse b = Throw e
       /\ conversion_fault Date_parse b = Some e
       /\ satisfied Date_parse b FieldsPresent = true
       /\ satisfied Date_parse b UserIdText = true.
Proof.
  rewrite validate_refines.
  destruct (conversion_fault Date_parse b) as [e|]; [|left; reflexivity].
  destruct (satisfied Date_parse b FieldsPresent);
    destruct (satisfied Date_parse b UserIdText); cbn [andb];
    try (left; reflexivity).
  right. exists e. repeat split.
Qed.

Lemma validate_no_fault (b : ReqBody) :
  conversion_fault Date_parse b = None ->
  validate Date_parse b = Normal (spec_validate Date_parse b).
Proof. intro H. rewrite validate_refines, H. reflexivity. Qed.

Lemma reason_injective (r r' : Rule) : reason r = reason r' -> r = r'.
Proof.
  destruct r, r'; intro H; try reflexivity; discriminate H.
Qed.

(** The first violated rule is violated and every rule before it holds. *)
Lemma first_violated_spec (b : ReqBody) (r : Rule) :
  first_violated Date_parse b = Some r <->
  satisfied Date_parse b r = false /\
  (forall r', (rank r' < rank r)%nat -> satisfied Date_parse b r' = true).
Proof.
  unfold first_violated, rules_in_order. cbn [find].
  split.
  - destruct (satisfied Date_parse b FieldsPresent) eqn:H1; cbn [negb];
      [|intro H; injection H as <-; split; [exact H1|];
        intros r' Hr; destruct r'; cbn [rank] in Hr; lia].
    destruct (satisfied Date_parse b UserIdText) eqn:H2; cbn [negb];
      [|intro H; injection H as <-; split; [exact H2|];
        intros r' Hr; destruct r'; cbn [rank] in Hr; try lia; assumption].
    destruct (satisfied Date_parse b StartTimeParses) eqn:H3; cbn [negb];
      [|intro H; injection H as <-; split; [exact H3|];
        intros r' Hr; destruct r'; cbn [rank] in Hr; try lia; assumption].
    destruct (satisfied Date_parse b EndTimeParses) eqn:H4; cbn [negb];
      [|intro H; injection H as <-; split; [exact H4|];
        intros r' Hr; destruct r'; cbn [rank] in Hr; try lia; assumption].
    destruct (satisfied Date_parse b EndAfterStart) eqn:H5; cbn [negb];
      [|intro H; injection H as <-; split; [exact H5|];
        intros r' Hr; destruct r'; cbn [rank] in Hr; try lia; assumption].
    destruct (satisfied Date_parse b DurationWithinLimit) eqn:H6; cbn [negb];
      [discriminate|intro H; injection H as <-; split; [exact H6|];
        intros r' Hr; destruct r'; cbn [rank] in Hr; try lia; assumption].
  - intros [Hv Hbefore].
    destruct r; cbn [rank] in Hbefore;
      repeat match goal with
        | |- context [satisfied Date_parse b ?q] =>
            first [ rewrite Hv
                  | rewrite (Hbefore q) by (cbn [rank]; lia) ];
            cbn [negb]
        end; reflexivity.
Qed.

End ValidationProperties.

(** ** Properties of the handler *)

Section HandlerProperties.

Variable Date_parse : JsString -> option Z.

Lemma run_responded (env : Env) (fuel : nat) (res : Response) :
  run env fuel (Responded res) = [Responded res].
Proof. destruct fuel; reflexivity. Qed.

(** A rejected input is answered before anything else happens. *)
Lemma rejected_at_start (env : Env) (b : ReqBody) (msg : string) :
  validate Date_parse b = Normal (inl msg) ->
  let res := {| status := 400; json := ErrorOnly msg |} in
  post_sessions_start Date_parse env {| body := Some b |} = Responded res
  /\ post_sessions Date_parse env {| body := Some b |} = Responded res
  /\ execution Date_parse env {| body := Some b |} = [Responded res].
Proof.
  intros Hv res.
  unfold post_sessions, execution, post_sessions_start.
  cbn [body]. rewrite Hv. cbn [advance].
  rewrite run_responded. repeat split.
Qed.

(** An accepted input brings the handler to the call of the compression
    stage, with a record whose flags are both false. *)
Lemma accepted_at_start (env : Env) (b : ReqBody) (startDate endDate : JsDate) :
  validate Date_parse b = Normal (inr (startDate, endDate)) ->
  post_sessions_start Date_parse env {| body := Some b |} =
  AwaitCompression
    (utf16 "session_" ++ numberToString (Date_now env 0%nat)
       ++ utf16 "_" ++ Math_random_toString36 env)%list
    {| Session.userId := trim (stringValue (userId b));
       Session.startTime := startDate;
       Session.endTime := endDate;
       Session.media := Session.media_default;
       Session.createdAt := Date_now env 1%nat |}.
Proof.
  intro Hv. unfold post_sessions_start. cbn [body]. rewrite Hv. reflexivity.
Qed.


(** When both times parse, building their dates does not throw. *)
Lemma no_fault_when_times_parse (b : ReqBody) :
  satisfied Date_parse b StartTimeParses = true ->
  satisfied Date_parse b EndTimeParses = true ->
  conversion_fault Date_parse b = None.
Proof.
  unfold conversion_fault. cbn [satisfied].
  destruct (new_Date Date_parse (startTime b)) as [[s|]|e1];
    try discriminate.
  destruct (new_Date Date_parse (endTime b)) as [[e|]|e2];
    try discriminate.
  reflexivity.
Qed.

Lemma accepted_when_all_satisfied (b : ReqBody) :
  (forall r, satisfied Date_parse b r = true) ->
  validate Date_parse b =
  Normal (inr (date_built (new_Date Date_parse (startTime b)),
               date_built (new_Date Date_parse (endTime b)))).
Proof.
  intro Hall.
  rewrite validate_no_fault
    by (apply no_fault_when_times_parse; apply Hall).
  unfold spec_validate.
  destruct (first_violated Date_parse b) as [r|] eqn:Hf; [|reflexivity].
  apply first_violated_spec in Hf. destruct Hf as [Hv _].
  rewrite Hall in Hv. discriminate Hv.
Qed.

(** The first rule violated is the one reported, when it is one of the
    first two or when building the dates does not throw. *)
Lemma rejected_when_first_violated (b : ReqBody) (r : Rule) :
  satisfied Date_parse b r = false ->
  (forall r', (rank r' < rank r)%nat -> satisfied Date_parse b r' = true) ->
  (rank r < 2)%nat \/ conversion_fault Date_parse b = None ->
  validate Date_parse b = Normal (inl (reason r)).
Proof.
  intros Hv Hbefore Hok.
  assert (Hspec : spec_validate Date_parse b = inl (reason r)).
  { unfold spec_validate.
    replace (first_violated Date_parse b) with (Some r); [reflexivity|].
    symmetry. apply first_violated_spec. split; assumption. }
  destruct (validate_cases Date_parse b) as [Hn|(e & _ & Hf & H1 & H2)].
  - rewrite Hn, Hspec. reflexivity.
  - destruct Hok as [Hr|Hnone]; [|rewrite Hnone in Hf; discriminate Hf].
    destruct r; cbn [rank] in Hr; try lia; congruence.
Qed.





(** C10: presence is tested by truthiness, so an input one of whose
    fields is falsy (the number 0, the empty string, [null], [false], an
    absent field) is rejected as missing required fields, whatever the
    other rules would say, and this reason is none of the other five. *)
Theorem falsy_field_is_missing (env : Env) (b : ReqBody) :
  truthy (userId b) = false \/ truthy (startTime b) = false
  \/ truthy (endTime b) = false ->
  post_sessions Date_parse env {| body := Some b |} =
    Responded
      {| status := 400;
         json := ErrorOnly "Missing required fields: userId, startTime, endTime" |}
  /\ (forall r, r <> FieldsPresent ->
        reason r <> "Missing required fields: userId, startTime, endTime")
  /\ truthy (JsNum (S754_zero false)) = false
  /\ truthy (JsStr []) = false.
Proof.
  intro Hfalsy.
  assert (Hv : satisfied Date_parse b FieldsPresent = false).
  { cbn [satisfied].
    destruct Hfalsy as [H|[H|H]]; rewrite H;
      repeat rewrite Bool.andb_false_r; reflexivity. }
  assert (Hval : validate Date_parse b = Normal (inl (reason FieldsPresent))).
  { apply rejected_when_first_violated; [exact Hv| |left; cbn [rank]; lia].
    intros r' Hr. cbn [rank] in Hr. lia. }
  destruct (rejected_at_start env b _ Hval) as (_ & Hp & _).
  split; [exact Hp|].
  split; [|split; reflexivity].
  intros r Hr Heq. apply Hr.
  apply reason_injective. exact Heq.
Qed.

(** C3 as amended: the input with the empty userId is rejected with the
    reason of the presence rule, whatever the engine's [Date.parse]. *)
Theorem empty_userId_is_missing_fields (env : Env) :
  validate Date_parse Scenario.empty_userId =
    Normal (inl "Missing required fields: userId, startTime, endTime")
  /\ post_sessions Date_parse env {| body := Some Scenario.empty_userId |} =
       Responded
         {| status := 400;
            json :=
              ErrorOnly "Missing required fields: userId, startTime, endTime" |}.
Proof.
  assert (Hval : validate Date_parse Scenario.empty_userId =
                 Normal
                   (inl "Missing required fields: userId, startTime, endTime"))
    by reflexivity.
  split; [exact Hval|].
  destruct (rejected_at_start env _ _ Hval) as (_ & Hp & _). exact Hp.
Qed.

(** C4: on an input that satisfies every other rule, a duration of
    exactly 28,800,000 ms is accepted and the handler goes on to the
    pipeline; a duration of 28,800,001 ms is rejected with the reason of
    the duration limit. *)
Theorem eight_hours_boundary (env : Env) (b : ReqBody) (s e : Z) :
  (forall r, r <> DurationWithinLimit -> satisfied Date_parse b r = true) ->
  new_Date Date_parse (startTime b) = Normal (Some s) ->
  new_Date Date_parse (endTime b) = Normal (Some e) ->
  maxDuration = 28800000
  /\ (e - s = 28800000 ->
      validate Date_parse b = Normal (inr (Some s, Some e))
      /\ exists sessionId sessionData,
           post_sessions_start Date_parse env {| body := Some b |} =
           AwaitCompression sessionId sessionData)
  /\ (e - s = 28800000 + 1 ->
      validate Date_parse b =
        Normal (inl "Session duration cannot exceed 8 hours")
      /\ post_sessions Date_parse env {| body := Some b |} =
         Responded
           {| status := 400;
              json := ErrorOnly "Session duration cannot exceed 8 hours" |}).
Proof.
  intros Hother Hs He.
  split; [reflexivity|]. split.
  - intro Hd.
    assert (Hval : validate Date_parse b = Normal (inr (Some s, Some e))).
    { replace (Some s) with (date_built (new_Date Date_parse (startTime b)))
        by (rewrite Hs; reflexivity).
      replace (Some e) with (date_built (new_Date Date_parse (endTime b)))
        by (rewrite He; reflexivity).
      apply accepted_when_all_satisfied.
      intro r. destruct r; try (apply Hother; discriminate).
      cbn [satisfied]. rewrite Hs, He. apply Z.leb_le. lia. }
    split; [exact Hval|].
    rewrite (accepted_at_start env b _ _ Hval). eauto.
  - intro Hd.
    assert (Hval : validate Date_parse b =
                   Normal (inl (reason DurationWithinLimit))).
    { apply rejected_when_first_violated.
      - cbn [satisfied]. rewrite Hs, He. apply Z.leb_gt. lia.
      - intros r' Hr. apply Hother. intros ->. cbn [rank] in Hr. lia.
      - right. unfold conversion_fault. rewrite Hs, He. reflexivity. }
    split; [exact Hval|].
    destruct (rejected_at_start env b _ Hval) as (_ & Hp & _). exact Hp.
Qed.

End HandlerProperties.

(** ** Properties of the pipeline and of the save *)

Section PipelineProperties.

Variable Date_parse : JsString -> option Z.

Lemma flags_set_compressed (d : Session.Fields) :
  flags (set_compressed d) = (true, snd (flags d)).
Proof. reflexivity. Qed.

Lemma flags_set_audioExtracted (d : Session.Fields) :
  flags (set_audioExtracted d) = (fst (flags d), true).
Proof. reflexivity. Qed.

(** The handler starts either at its end or at the compression stage,
    and then with both flags false. *)
Lemma progress_at_start (env : Env) (req : Request) :
  progress (post_sessions_start Date_parse env req).
Proof.
  unfold post_sessions_start.
  destruct (body req) as [b|]; [|exact I].
  destruct (validate Date_parse b) as [[msg|[startDate endDate]]|err];
    [exact I|reflexivity|exact I].
Qed.

Lemma progress_step (h h' : Handler) :
  progress h -> step h h' -> progress h'.
Proof.
  intros Hp Hstep.
  destruct Hstep as [sid d o|sid d o|sid d o]; cbn [progress] in Hp;
    destruct o as [v|err]; cbn.
  - rewrite flags_set_compressed, Hp. reflexivity.
  - left. exact Hp.
  - rewrite flags_set_audioExtracted, Hp. reflexivity.
  - right. left. exact Hp.
  - exact Hp.
  - right. right. exact Hp.
Qed.

Lemma progress_reachable (env : Env) (req : Request) (h : Handler) :
  reachable Date_parse env req h -> progress h.
Proof.
  induction 1 as [|h h' _ IH Hstep].
  - apply progress_at_start.
  - exact (progress_step h h' IH Hstep).
Qed.

Lemma progress_flags_ordered (h : Handler) (d : Session.Fields) :
  progress h -> record_of h = Some d -> flags_ordered d.
Proof.
  unfold flags_ordered.
  destruct h as [sid d0|sid d0|sid d0|[st j]]; cbn [progress record_of].
  - intros Hp [= <-]. injection Hp as Hc Ha. congruence.
  - intros Hp [= <-]. injection Hp as Hc Ha. congruence.
  - intros Hp [= <-]. injection Hp as Hc Ha. congruence.
  - destruct j as [err|err sid d0|msg sid id saved|err msg];
      try discriminate.
    + intros [Hp|[Hp|Hp]] [= <-]; injection Hp as Hc Ha; congruence.
    + intros Hp [= <-]. injection Hp as Hc Ha. congruence.
Qed.

(** The states of the execution under the collaborators of [env] are
    reachable. *)
Lemma advance_step_or_end (env : Env) (h : Handler) :
  step h (advance env h) \/ exists res, h = Responded res.
Proof.
  destruct h as [sid d|sid d|sid d|res]; cbn [advance];
    [left; constructor ..|right; eauto].
Qed.

Lemma reachable_advance (env : Env) (req : Request) (h : Handler) :
  reachable Date_parse env req h ->
  reachable Date_parse env req (advance env h).
Proof.
  intro Hr. destruct (advance_step_or_end env h) as [Hs|[res ->]].
  - exact (reachable_step _ _ _ _ _ Hr Hs).
  - exact Hr.
Qed.

Lemma run_reachable (env : Env) (req : Request) (fuel : nat) :
  forall h0 h,
    reachable Date_parse env req h0 -> In h (run env fuel h0) ->
    reachable Date_parse env req h.
Proof.
  induction fuel as [|fuel IH]; intros h0 h Hr Hin.
  - destruct h0; cbn [run In] in Hin;
      destruct Hin as [<-|[]]; exact Hr.
  - destruct h0 as [sid d|sid d|sid d|res]; cbn [run] in Hin;
      destruct Hin as [<-|Hin]; try exact Hr;
      try (apply (IH _ h (reachable_advance env req _ Hr)); exact Hin).
    destruct Hin.
Qed.

(** C5: at every point of every execution, [audioExtracted] implies
    [compressed].  Both flags start false; the extraction stage is only
    ever entered from the compression stage, when that one was
    fulfilled, and then with [compressed] set; a stage that is fulfilled
    sets its own flag and leaves the other flag and the rest of the
    record as they were, a stage that is rejected sets nothing. *)
Theorem audio_extracted_implies_compressed (env : Env) (req : Request) :
  (forall h d,
     reachable Date_parse env req h -> record_of h = Some d ->
     Session.audioExtracted (Session.media d) = true ->
     Session.compressed (Session.media d) = true)
  /\ (forall h, In h (execution Date_parse env req) ->
                reachable Date_parse env req h)
  /\ (forall sessionId d,
        post_sessions_start Date_parse env req = AwaitCompression sessionId d ->
        Session.media d = Session.media_default
        /\ flags d = (false, false))
  /\ (forall sessionId d,
        post_sessions_start Date_parse env req <> AwaitExtraction sessionId d)
  /\ (forall h sessionId d,
        reachable Date_parse env req h ->
        step h (AwaitExtraction sessionId d) ->
        exists d0 v,
          h = AwaitCompression sessionId d0
          /\ AwaitExtraction sessionId d =
             after_compression sessionId d0 (Fulfilled v)
          /\ flags d0 = (false, false)
          /\ flags d = (true, false))
  /\ (forall sessionId d v,
        exists d',
          after_compression sessionId d (Fulfilled v) =
            AwaitExtraction sessionId d'
          /\ Session.compressed (Session.media d') = true
          /\ Session.audioExtracted (Session.media d') =
             Session.audioExtracted (Session.media d)
          /\ same_session d d')
  /\ (forall sessionId d v,
        exists d',
          after_extraction sessionId d (Fulfilled v) = AwaitSave sessionId d'
          /\ Session.audioExtracted (Session.media d') = true
          /\ Session.compressed (Session.media d') =
             Session.compressed (Session.media d)
          /\ same_session d d')
  /\ (forall sessionId d err,
        record_of (after_compression sessionId d (RejectedWith err)) = Some d
        /\ record_of (after_extraction sessionId d (RejectedWith err)) = Some d).
Proof.
  split.
  { intros h d Hr Hrec. apply (progress_flags_ordered h d); [|exact Hrec].
    exact (progress_reachable env req h Hr). }
  split.
  { intros h Hin. unfold execution in Hin.
    apply (run_reachable env req 3 _ h (reachable_start _ _ _) Hin). }
  split.
  { intros sid d Hstart.
    pose proof (progress_at_start env req) as Hp. rewrite Hstart in Hp.
    cbn [progress] in Hp. split; [|exact Hp].
    unfold flags in Hp. injection Hp as Hc Ha.
    destruct (Session.media d) as [c a]. cbn in Hc, Ha. subst. reflexivity. }
  split.
  { intros sid d. unfold post_sessions_start.
    destruct (body req) as [b|]; [|discriminate].
    destruct (validate Date_parse b) as [[msg|[startDate endDate]]|err];
      discriminate. }
  split.
  { intros h sid d Hr Hstep.
    pose proof (progress_reachable env req h Hr) as Hp.
    inversion Hstep as [sid0 d0 o Hh Hafter|sid0 d0 o Hh Hafter
                       |sid0 d0 o Hh Hafter]; subst h.
    - destruct o as [v|err]; [|discriminate Hafter].
      cbn [after_compression] in Hafter. injection Hafter as -> <-.
      exists d0, v. cbn [progress] in Hp.
      repeat split; [exact Hp|].
      rewrite flags_set_compressed, Hp. reflexivity.
    - destruct o; discriminate Hafter.
    - destruct o; discriminate Hafter. }
  split.
  { intros sid d v. exists (set_compressed d).
    repeat split. }
  split.
  { intros sid d v. exists (set_audioExtracted d).
    repeat split. }
  intros sid d err. split; reflexivity.
Qed.

(** C1: an input whose userId is text that is non-empty once trimmed and
    whose startTime and endTime are text that parses to times [s] and [e]
    with [0 < e - s <= 28800000] is persisted, when both stages and the
    save are fulfilled: the handler answers 201 with the identifier of
    the store and the saved record, both of whose flags are true.
    ([Date.parse] answers [NaN] on the empty string.) *)
Theorem valid_input_is_persisted
    (env : Env) (b : ReqBody) (u ss es : JsString) (s e : Z) :
  Date_parse [] = None ->
  userId b = JsStr u -> trim u <> [] ->
  startTime b = JsStr ss -> new_Date Date_parse (JsStr ss) = Normal (Some s) ->
  endTime b = JsStr es -> new_Date Date_parse (JsStr es) = Normal (Some e) ->
  0 < e - s <= 28800000 ->
  (forall sessionId, is_fulfilled (compress env sessionId) = true) ->
  (forall sessionId, is_fulfilled (extractAudio env sessionId) = true) ->
  (forall d, is_fulfilled (save env d) = true) ->
  exists sessionId databaseId d,
    post_sessions Date_parse env {| body := Some b |} =
      Responded
        {| status := 201;
           json :=
             Created "Session created, processed, and saved successfully"
               sessionId databaseId
               {| Session._id := databaseId; Session.doc := d |} |}
    /\ Session.compressed (Session.media d) = true
    /\ Session.audioExtracted (Session.media d) = true
    /\ Session.userId d = trim u
    /\ Session.startTime d = Some s
    /\ Session.endTime d = Some e
    /\ save env d = Fulfilled databaseId
    /\ outcome Date_parse env {| body := Some b |} = Persisted.
Proof.
  intros Hempty Hu Htrim Hss Hs Hes He Hd Hc Ha Hsave.
  assert (Hval : validate Date_parse b = Normal (inr (Some s, Some e))).
  { replace (Some s) with (date_built (new_Date Date_parse (startTime b)))
      by (rewrite Hss, Hs; reflexivity).
    replace (Some e) with (date_built (new_Date Date_parse (endTime b)))
      by (rewrite Hes, He; reflexivity).
    apply accepted_when_all_satisfied.
    assert (Hne : forall x t, new_Date Date_parse (JsStr x) = Normal (Some t) ->
                              truthy (JsStr x) = true).
    { intros [|c x] t Hx; [|reflexivity].
      cbn [new_Date] in Hx. rewrite Hempty in Hx. discriminate Hx. }
    intro r. destruct r; cbn [satisfied]; rewrite ?Hu, ?Hss, ?Hes, ?Hs, ?He.
    - rewrite (Hne ss s Hs), (Hne es e He).
      destruct u as [|c u]; [contradiction Htrim; reflexivity|reflexivity].
    - destruct (trim u); [contradiction Htrim; reflexivity|reflexivity].
    - reflexivity.
    - reflexivity.
    - apply Z.ltb_lt. lia.
    - apply Z.leb_le. lia. }
  pose proof (accepted_at_start Date_parse env b _ _ Hval) as Hstart.
  set (sid := (utf16 "session_" ++ numberToString (Date_now env 0%nat)
                 ++ utf16 "_" ++ Math_random_toString36 env)%list) in *.
  set (d0 := {| Session.userId := trim (stringValue (userId b));
                Session.startTime := Some s;
                Session.endTime := Some e;
                Session.media := Session.media_default;
                Session.createdAt := Date_now env 1%nat |}) in *.
  specialize (Hc sid). specialize (Ha sid).
  specialize (Hsave (set_audioExtracted (set_compressed d0))).
  destruct (compress env sid) as [vc|] eqn:Ec; [|discriminate Hc].
  destruct (extractAudio env sid) as [va|] eqn:Ea; [|discriminate Ha].
  destruct (save env (set_audioExtracted (set_compressed d0))) as [id|] eqn:Es;
    [|discriminate Hsave].
  exists sid, id, (set_audioExtracted (set_compressed d0)).
  split.
  { unfold post_sessions. rewrite Hstart.
    cbn [advance]. rewrite Ec. cbn [after_compression advance].
    rewrite Ea. cbn [after_extraction advance]. rewrite Es. reflexivity. }
  split; [reflexivity|]. split; [reflexivity|].
  split; [cbn; rewrite Hu; reflexivity|].
  split; [reflexivity|]. split; [reflexivity|].
  split; [exact Es|].
  unfold outcome. cbn [body]. rewrite Hstart, Ec, Ea, Es. reflexivity.
Qed.

(** C6: when the compression stage is rejected, [compressed] stays false,
    the extraction stage is never entered and the store is never written;
    when the compression is fulfilled and the extraction is rejected,
    [compressed] is true, [audioExtracted] is false and the store is
    never written.  In both cases the response is the 500 of a failed
    processing, with the session identifier and the record as it stood
    when the stage failed. *)
Theorem stage_failure_keeps_partial_record
    (env : Env) (req : Request) (sessionId : JsString) (d : Session.Fields) :
  post_sessions_start Date_parse env req = AwaitCompression sessionId d ->
  (forall err,
     compress env sessionId = RejectedWith err ->
     post_sessions Date_parse env req =
       Responded
         {| status := 500;
            json := ErrorWithSession "Media processing failed" sessionId d |}
     /\ flags d = (false, false)
     /\ existsb extraction_runs (execution Date_parse env req) = false
     /\ existsb store_write (execution Date_parse env req) = false
     /\ outcome Date_parse env req = ProcessingFailed)
  /\ (forall v err,
        compress env sessionId = Fulfilled v ->
        extractAudio env sessionId = RejectedWith err ->
        exists d',
          post_sessions Date_parse env req =
            Responded
              {| status := 500;
                 json :=
                   ErrorWithSession "Media processing failed" sessionId d' |}
          /\ flags d' = (true, false)
          /\ same_session d d'
          /\ existsb store_write (execution Date_parse env req) = false
          /\ outcome Date_parse env req = ProcessingFailed).
Proof.
  intro Hstart.
  pose proof (progress_at_start env req) as Hp. rewrite Hstart in Hp.
  cbn [progress] in Hp.
  assert (Hbody : exists b, body req = Some b).
  { unfold post_sessions_start in Hstart.
    destruct (body req) as [b|]; [eauto|discriminate Hstart]. }
  destruct Hbody as [b Hbody].
  split.
  - intros err Ec.
    unfold post_sessions, execution, outcome. rewrite Hbody, Hstart.
    cbn [run advance]. rewrite Ec.
    cbn [after_compression advance run existsb extraction_runs store_write].
    repeat split. exact Hp.
  - intros v err Ec Ea. exists (set_compressed d).
    unfold post_sessions, execution, outcome. rewrite Hbody, Hstart.
    cbn [run advance]. rewrite Ec. cbn [after_compression advance run].
    rewrite Ea.
    cbn [after_extraction advance run existsb extraction_runs store_write].
    repeat split.
    rewrite flags_set_compressed, Hp. reflexivity.
Qed.

(** C8: when both stages are fulfilled and the save is rejected, the
    response is a 500 that carries the session identifier and the record
    with both flags true, and no identifier of the store. *)
Theorem save_failure_reports_processed_record
    (env : Env) (req : Request) (sessionId : JsString) (d : Session.Fields) :
  post_sessions_start Date_parse env req = AwaitCompression sessionId d ->
  is_fulfilled (compress env sessionId) = true ->
  is_fulfilled (extractAudio env sessionId) = true ->
  is_fulfilled (save env (set_audioExtracted (set_compressed d))) = false ->
  exists res d',
    post_sessions Date_parse env req = Responded res
    /\ status res = 500
    /\ json res =
       ErrorWithSession "Failed to save session to database" sessionId d'
    /\ Session.compressed (Session.media d') = true
    /\ Session.audioExtracted (Session.media d') = true
    /\ same_session d d'
    /\ databaseId_of (json res) = None
    /\ existsb store_write (execution Date_parse env req) = true
    /\ outcome Date_parse env req = PersistenceFailed.
Proof.
  intros Hstart Hc Ha Hs.
  assert (Hbody : exists b, body req = Some b).
  { unfold post_sessions_start in Hstart.
    destruct (body req) as [b|]; [eauto|discriminate Hstart]. }
  destruct Hbody as [b Hbody].
  destruct (compress env sessionId) as [vc|] eqn:Ec; [|discriminate Hc].
  destruct (extractAudio env sessionId) as [va|] eqn:Ea; [|discriminate Ha].
  destruct (save env (set_audioExtracted (set_compressed d))) as [id|err] eqn:Es;
    [discriminate Hs|].
  eexists. exists (set_audioExtracted (set_compressed d)).
  unfold post_sessions, execution, outcome. rewrite Hbody, Hstart.
  cbn [run advance]. rewrite Ec. cbn [after_compression advance run].
  rewrite Ea. cbn [after_extraction advance run]. rewrite Es.
  cbn [after_save run existsb store_write orb].
  split; [reflexivity|]. repeat split.
Qed.

(** The handler always comes to a response. *)
Lemma post_sessions_responds (env : Env) (req : Request) :
  exists res, post_sessions Date_parse env req = Responded res.
Proof.
  unfold post_sessions, post_sessions_start.
  destruct (body req) as [b|]; [|cbn; eauto].
  destruct (validate Date_parse b) as [[msg|[startDate endDate]]|err];
    [cbn; eauto| |cbn; eauto].
  cbn [advance].
  destruct (compress env _); cbn [after_compression advance]; [|eauto].
  destruct (extractAudio env _); cbn [after_extraction advance]; [|eauto].
  destruct (save env _); cbn [after_save]; eauto.
Qed.

(** C9 as amended: the handler always responds, and the status follows
    the outcome: 400 for a validation failure, 500 for a processing
    failure, for a persistence failure and for an unexpected fault alike,
    201 for success.  The three kinds that share status 500 differ in
    the body: each has its own [error], and the fault is the only one
    without session identifier and record. *)
Theorem status_by_outcome (env : Env) (req : Request) :
  exists res,
    post_sessions Date_parse env req = Responded res
    /\ status res =
       match outcome Date_parse env req with
       | Rejected => 400
       | ProcessingFailed | PersistenceFailed | InternalFailure => 500
       | Persisted => 201
       end
    /\ status_category res =
       match outcome Date_parse env req with
       | Rejected => 4
       | ProcessingFailed | PersistenceFailed | InternalFailure => 5
       | Persisted => 2
       end
    /\ match outcome Date_parse env req with
       | Rejected => exists msg, json res = ErrorOnly msg
       | ProcessingFailed =>
           exists sessionId d,
             json res = ErrorWithSession "Media processing failed" sessionId d
       | PersistenceFailed =>
           exists sessionId d,
             json res =
             ErrorWithSession "Failed to save session to database" sessionId d
       | InternalFailure =>
           json res =
           ErrorWithMessage "Internal server error"
             "An unexpected error occurred while processing the session"
       | Persisted =>
           exists sessionId saved,
             json res =
             Created "Session created, processed, and saved successfully"
               sessionId (Session._id saved) saved
       end.
Proof.
  unfold post_sessions, outcome, post_sessions_start.
  destruct (body req) as [b|].
  2:{ eexists. split; [reflexivity|]. repeat split. }
  destruct (validate Date_parse b) as [[msg|[startDate endDate]]|err].
  3:{ eexists. split; [reflexivity|]. repeat split. }
  { eexists. split; [reflexivity|]. repeat split. cbn. eauto. }
  cbn [advance].
  destruct (compress env _) as [vc|]; cbn [after_compression advance].
  2:{ eexists. split; [reflexivity|]. repeat split. cbn. eauto. }
  destruct (extractAudio env _) as [va|]; cbn [after_extraction advance].
  2:{ eexists. split; [reflexivity|]. repeat split. cbn. eauto. }
  destruct (save env _) as [id|]; cbn [after_save].
  - eexists. split; [reflexivity|]. repeat split.
    cbn [json]. eexists. eexists {| Session._id := id |}. reflexivity.
  - eexists. split; [reflexivity|]. repeat split. cbn. eauto.
Qed.

End PipelineProperties.

(** ** White space and [trim] *)

Section TrimProperties.

Lemma trimStart_starts_clean (s : JsString) : starts_clean (trimStart s).
Proof.
  induction s as [|c s IH]; cbn [trimStart]; [exact I|].
  destruct (isWhiteSpace c) eqn:Hc; [exact IH|exact Hc].
Qed.

Lemma trimStart_fixed (s : JsString) : starts_clean s -> trimStart s = s.
Proof.
  destruct s as [|c s]; cbn [starts_clean trimStart]; [reflexivity|].
  intros ->. reflexivity.
Qed.

Lemma trimStart_split (s : JsString) :
  exists p, s = (p ++ trimStart s)%list /\ forallb isWhiteSpace p = true.
Proof.
  induction s as [|c s (p & Hs & Hp)]; [exists []; split; reflexivity|].
  cbn [trimStart]. destruct (isWhiteSpace c) eqn:Hc.
  - exists (c :: p). cbn [forallb app]. rewrite Hc, Hp, <- Hs.
    split; reflexivity.
  - exists []. split; reflexivity.
Qed.

Lemma trimStart_nil_iff (s : JsString) :
  trimStart s = [] <-> forallb isWhiteSpace s = true.
Proof.
  induction s as [|c s IH]; cbn [trimStart forallb]; [tauto|].
  destruct (isWhiteSpace c); cbn [andb]; [exact IH|].
  split; discriminate.
Qed.

Lemma forallb_rev (f : N -> bool) (s : JsString) :
  forallb f (rev s) = forallb f s.
Proof.
  induction s as [|c s IH]; [reflexivity|].
  cbn [rev forallb]. rewrite forallb_app, IH. cbn [forallb].
  rewrite Bool.andb_true_r. apply Bool.andb_comm.
Qed.

Lemma starts_clean_prefix (s q : JsString) :
  s <> [] -> starts_clean (s ++ q)%list -> starts_clean s.
Proof.
  destruct s as [|c s]; [intro H; contradiction H; reflexivity|].
  intros _ H. exact H.
Qed.

(** [trim] gives the empty string on white space only, and on nothing
    else. *)
Lemma trim_nil_iff (s : JsString) :
  trim s = [] <-> forallb isWhiteSpace s = true.
Proof.
  unfold trim, trimEnd. split.
  - intro H.
    assert (Hr : trimStart (rev (trimStart s)) = []).
    { destruct (trimStart (rev (trimStart s))) as [|c u]; [reflexivity|].
      cbn [rev] in H. destruct (rev u); discriminate H. }
    apply trimStart_nil_iff in Hr. rewrite forallb_rev in Hr.
    pose proof (trimStart_starts_clean s) as Hc.
    apply trimStart_nil_iff.
    destruct (trimStart s) as [|c t]; [reflexivity|].
    cbn [starts_clean] in Hc. cbn [forallb] in Hr. rewrite Hc in Hr.
    discriminate Hr.
  - intro H. apply trimStart_nil_iff in H. rewrite H. reflexivity.
Qed.

(** What [trim] returns starts and ends with something else than white
    space, so trimming it again changes nothing. *)
Lemma trim_clean (s : JsString) :
  starts_clean (trim s) /\ starts_clean (rev (trim s)).
Proof.
  unfold trim, trimEnd.
  set (t := trimStart s).
  pose proof (trimStart_starts_clean s) as Ht. fold t in Ht.
  pose proof (trimStart_starts_clean (rev t)) as Hu.
  destruct (trimStart_split (rev t)) as (p & Hsplit & Hp).
  set (u := trimStart (rev t)) in *.
  rewrite rev_involutive. split; [|exact Hu].
  destruct u as [|c u']; [exact I|].
  apply (starts_clean_prefix _ (rev p)).
  - cbn [rev]. destruct (rev u'); discriminate.
  - rewrite <- rev_app_distr, <- Hsplit, rev_involutive. exact Ht.
Qed.

Lemma trim_idempotent (s : JsString) : trim (trim s) = trim s.
Proof.
  destruct (trim_clean s) as [Hhead Hlast].
  unfold trim at 1. unfold trimEnd.
  rewrite (trimStart_fixed _ Hhead), (trimStart_fixed _ Hlast).
  apply rev_involutive.
Qed.

End TrimProperties.

(** ** Further properties of the handler *)

Section RecordProperties.

Variable Date_parse : JsString -> option Z.

(** What an accepted input looks like. *)
Lemma accepted_input (b : ReqBody) (startDate endDate : JsDate) :
  validate Date_parse b = Normal (inr (startDate, endDate)) ->
  exists u s e,
    userId b = JsStr u /\ trim u <> []
    /\ truthy (startTime b) = true /\ truthy (endTime b) = true
    /\ new_Date Date_parse (startTime b) = Normal (Some s)
    /\ startDate = Some s
    /\ new_Date Date_parse (endTime b) = Normal (Some e)
    /\ endDate = Some e
    /\ s < e /\ e - s <= 28800000.
Proof.
  intro Hv.
  destruct (validate_cases Date_parse b) as [Hn|(err & Ht & _)];
    [|rewrite Ht in Hv; discriminate Hv].
  rewrite Hn in Hv. injection Hv as Hv. unfold spec_validate in Hv.
  destruct (first_violated Date_parse b) as [r|] eqn:Hf; [discriminate Hv|].
  injection Hv as <- <-.
  assert (Hall : forall r, satisfied Date_parse b r = true).
  { intro r. unfold first_violated in Hf.
    pose proof (find_none _ _ Hf r) as Hr. cbn beta in Hr.
    apply Bool.negb_false_iff. apply Hr.
    destruct r; cbn; tauto. }
  pose proof (Hall FieldsPresent) as H1. pose proof (Hall UserIdText) as H2.
  pose proof (Hall EndAfterStart) as H5.
  pose proof (Hall DurationWithinLimit) as H6.
  cbn [satisfied] in H1, H2, H5, H6.
  apply Bool.andb_true_iff in H1. destruct H1 as [H1 He].
  apply Bool.andb_true_iff in H1. destruct H1 as [_ Hs].
  destruct (userId b) as [| |x|x|u|x]; try discriminate H2.
  destruct (new_Date Date_parse (startTime b)) as [[s|]|e1];
    try discriminate H5.
  destruct (new_Date Date_parse (endTime b)) as [[e|]|e2];
    try discriminate H5.
  exists u, s, e.
  apply Z.ltb_lt in H5. apply Z.leb_le in H6.
  repeat split; try assumption; try reflexivity.
  intro Ht. rewrite Ht in H2. discriminate H2.
Qed.

Lemma valid_record_same_session (env : Env) (req : Request)
    (d d' : Session.Fields) :
  same_session d d' -> valid_record env req d -> valid_record env req d'.
Proof.
  intros (Hu & Hs & He & Hc) (b & s & e & H).
  exists b, s, e. rewrite Hu, Hs, He, Hc. exact H.
Qed.

Lemma valid_record_at_start (env : Env) (req : Request) :
  holds_valid_record env req (post_sessions_start Date_parse env req).
Proof.
  unfold holds_valid_record, post_sessions_start.
  destruct (body req) as [b|] eqn:Hb; [|discriminate].
  destruct (validate Date_parse b) as [[msg|[startDate endDate]]|err] eqn:Hv;
    [discriminate| |discriminate].
  intros d [= <-].
  destruct (accepted_input b _ _ Hv)
    as (u & s & e & Hu & Htrim & _ & _ & _ & -> & _ & -> & Hlt & Hle).
  exists b, s, e. cbn. rewrite Hu. cbn [stringValue].
  repeat split; try assumption. apply trim_idempotent.
Qed.

Lemma valid_record_step (env : Env) (req : Request) (h h' : Handler) :
  holds_valid_record env req h -> step h h' -> holds_valid_record env req h'.
Proof.
  unfold holds_valid_record. intros Hh Hstep.
  destruct Hstep as [sid d o|sid d o|sid d o]; destruct o as [v|err];
    cbn; intros d' [= <-];
    try (apply (Hh d); reflexivity);
    apply (valid_record_same_session env req d); try (apply (Hh d); reflexivity);
    repeat split.
Qed.

Lemma valid_record_reachable (env : Env) (req : Request) (h : Handler) :
  reachable Date_parse env req h -> holds_valid_record env req h.
Proof.
  induction 1 as [|h h' _ IH Hstep].
  - apply valid_record_at_start.
  - exact (valid_record_step env req h h' IH Hstep).
Qed.

Lemma held_record_valid_aux
    (env : Env) (req : Request) (h : Handler) (d : Session.Fields) :
  reachable Date_parse env req h -> record_of h = Some d ->
  Session.userId d <> []
  /\ exists s e, Session.startTime d = Some s /\ Session.endTime d = Some e.
Proof.
  intros Hr Hrec.
  pose proof (valid_record_reachable env req h Hr) as Hh.
  destruct (Hh d Hrec) as (b & s & e & _ & _ & Hne & _ & Hs & He & _).
  split; [exact Hne|]. exists s, e. split; assumption.
Qed.

(** X2: every record the handler ever holds, whichever way the stages
    and the save settle, is a valid session record: its userId is the
    trimmed userId of the request, not empty and free of surrounding
    white space; its times are valid, the end strictly after the start
    and at most 28,800,000 ms later; its time of creation is the second
    reading of the clock. *)
Theorem held_record_is_valid
    (env : Env) (req : Request) (h : Handler) (d : Session.Fields) :
  reachable Date_parse env req h ->
  record_of h = Some d ->
  exists b s e,
    body req = Some b
    /\ Session.userId d = trim (stringValue (userId b))
    /\ Session.userId d <> []
    /\ trim (Session.userId d) = Session.userId d
    /\ starts_clean (Session.userId d)
    /\ starts_clean (rev (Session.userId d))
    /\ Session.startTime d = Some s
    /\ Session.endTime d = Some e
    /\ s < e /\ e - s <= 28800000
    /\ Session.createdAt d = Date_now env 1%nat.
Proof.
  intros Hr Hrec.
  pose proof (valid_record_reachable env req h Hr) as Hh.
  destruct (Hh d Hrec) as (b & s & e & Hb & Hu & Hne & Ht & Hs & He & H).
  exists b, s, e.
  split; [exact Hb|]. split; [exact Hu|]. split; [exact Hne|].
  split; [exact Ht|].
  rewrite <- Ht.
  split; [apply trim_clean|]. split; [apply trim_clean|].
  split; [exact Hs|]. split; [exact He|]. exact H.
Qed.

(** X7: a record the handler is about to save passes the required paths
    of the schema, so the store is never handed a document that lacks
    its userId or one of its times. *)
Theorem saved_record_meets_schema
    (env : Env) (req : Request) (sessionId : JsString) (d : Session.Fields) :
  reachable Date_parse env req (AwaitSave sessionId d) ->
  SessionSchema_required d = true
  /\ Session.media d =
     {| Session.compressed := true; Session.audioExtracted := true |}.
Proof.
  intro Hr. split.
  - destruct (held_record_valid_aux env req _ d Hr eq_refl)
      as (Hne & s & e & Hs & He).
    unfold SessionSchema_required. rewrite Hs, He.
    destruct (Session.userId d); [contradiction Hne; reflexivity|reflexivity].
  - pose proof (progress_reachable Date_parse env req _ Hr) as Hp.
    cbn [progress] in Hp. unfold flags in Hp. injection Hp as Hc Ha.
    destruct (Session.media d) as [c a]. cbn in Hc, Ha. subst. reflexivity.
Qed.

End RecordProperties.

Section ExecutionProperties.

Variable Date_parse : JsString -> option Z.

(** The identifier the handler makes up for a session. *)
Lemma start_sessionId (env : Env) (req : Request)
    (sessionId : JsString) (d : Session.Fields) :
  post_sessions_start Date_parse env req = AwaitCompression sessionId d ->
  sessionId =
  (utf16 "session_" ++ numberToString (Date_now env 0%nat)
     ++ utf16 "_" ++ Math_random_toString36 env)%list.
Proof.
  unfold post_sessions_start.
  destruct (body req) as [b|]; [|discriminate].
  destruct (validate Date_parse b) as [[msg|[startDate endDate]]|err];
    [discriminate| |discriminate].
  intros [= <- _]. reflexivity.
Qed.

Lemma start_cases (env : Env) (req : Request) :
  (exists res, post_sessions_start Date_parse env req = Responded res)
  \/ (exists sessionId d,
        post_sessions_start Date_parse env req = AwaitCompression sessionId d).
Proof.
  unfold post_sessions_start.
  destruct (body req) as [b|]; [|eauto].
  destruct (validate Date_parse b) as [[msg|[startDate endDate]]|err]; eauto.
Qed.

(** X3: an execution is the start of the handler followed by at most the
    three awaits, each at most once and in the order compression,
    extraction, save, with the same session identifier throughout; it
    stops at the first stage that is rejected and always ends with the
    response. *)
Theorem execution_shape (env : Env) (req : Request) :
  (exists res,
     execution Date_parse env req = [Responded res]
     /\ post_sessions_start Date_parse env req = Responded res
     /\ post_sessions Date_parse env req = Responded res)
  \/ (exists sessionId d res,
        execution Date_parse env req =
          [AwaitCompression sessionId d; Responded res]
        /\ is_fulfilled (compress env sessionId) = false
        /\ post_sessions Date_parse env req = Responded res)
  \/ (exists sessionId d res,
        execution Date_parse env req =
          [AwaitCompression sessionId d;
           AwaitExtraction sessionId (set_compressed d);
           Responded res]
        /\ is_fulfilled (compress env sessionId) = true
        /\ is_fulfilled (extractAudio env sessionId) = false
        /\ post_sessions Date_parse env req = Responded res)
  \/ (exists sessionId d res,
        execution Date_parse env req =
          [AwaitCompression sessionId d;
           AwaitExtraction sessionId (set_compressed d);
           AwaitSave sessionId (set_audioExtracted (set_compressed d));
           Responded res]
        /\ is_fulfilled (compress env sessionId) = true
        /\ is_fulfilled (extractAudio env sessionId) = true
        /\ post_sessions Date_parse env req = Responded res).
Proof.
  unfold execution, post_sessions.
  destruct (start_cases env req) as [[res ->]|(sid & d & ->)].
  { left. exists res. repeat split. }
  right. cbn [run advance].
  destruct (compress env sid) as [vc|] eqn:Ec; cbn [after_compression].
  2:{ left. do 3 eexists. rewrite Ec. repeat split. }
  right. cbn [run advance].
  destruct (extractAudio env sid) as [va|] eqn:Ea; cbn [after_extraction].
  2:{ left. do 3 eexists. rewrite Ec, Ea. repeat split. }
  right. cbn [run advance].
  destruct (save env _) as [id|]; cbn [after_save];
    do 3 eexists; rewrite Ec, Ea; repeat split.
Qed.

(** X1: with the two stages of the source, which always return [true],
    the pipeline cannot fail: the handler never answers "Media processing
    failed", and every input that passes validation reaches the save
    with both flags set. *)
Theorem source_stages_never_fail (env : Env) (req : Request) :
  (forall sessionId, compress env sessionId = simulateVideoCompression sessionId) ->
  (forall sessionId, extractAudio env sessionId = simulateAudioExtraction sessionId) ->
  outcome Date_parse env req <> ProcessingFailed
  /\ (forall res,
        post_sessions Date_parse env req = Responded res ->
        error_of (json res) <> Some "Media processing failed")
  /\ (forall sessionId d,
        post_sessions_start Date_parse env req = AwaitCompression sessionId d ->
        In (AwaitSave sessionId (set_audioExtracted (set_compressed d)))
           (execution Date_parse env req)).
Proof.
  intros Hc Ha.
  unfold outcome, post_sessions, execution.
  destruct (start_cases env req) as [[res Hs]|(sid & d & Hs)]; rewrite Hs.
  - split.
    { destruct (body req) as [b|];
        [destruct (validate Date_parse b)|]; discriminate. }
    split; [|discriminate].
    cbn [advance]. intros res' [= <-].
    unfold post_sessions_start in Hs.
    destruct (body req) as [b|]; [|injection Hs as <-; discriminate].
    destruct (validate Date_parse b) as [[msg|[startDate endDate]]|err] eqn:Hv;
      [|discriminate Hs|injection Hs as <-; discriminate].
    injection Hs as <-. cbn [json error_of].
    destruct (validate_cases Date_parse b) as [Hn|(e & Ht & _)];
      [|rewrite Ht in Hv; discriminate Hv].
    rewrite Hn in Hv. injection Hv as Hv. unfold spec_validate in Hv.
    destruct (first_violated Date_parse b) as [r|]; [|discriminate Hv].
    injection Hv as <-. destruct r; discriminate.
  - assert (Hbody : exists b, body req = Some b).
    { unfold post_sessions_start in Hs.
      destruct (body req) as [b|]; [eauto|discriminate Hs]. }
    destruct Hbody as [b ->].
    cbn [advance run]. rewrite !Hc. unfold simulateVideoCompression.
    cbn [after_compression advance run].
    rewrite !Ha. unfold simulateAudioExtraction.
    cbn [after_extraction advance run].
    split.
    { destruct (save env (set_audioExtracted (set_compressed d)));
        discriminate. }
    split.
    + intros res.
      destruct (save env (set_audioExtracted (set_compressed d)));
        cbn [after_save advance]; intros [= <-]; discriminate.
    + intros sid' d' [= <- <-]. cbn [In]. tauto.
Qed.

(** X4: a response carries a session identifier exactly when the input
    passed validation, and it is then "session_", the first reading of
    the clock, "_" and the random string: the same for whatever request
    and however the stages and the save settle. *)
Theorem response_carries_sessionId (env : Env) (req : Request) :
  exists res,
    post_sessions Date_parse env req = Responded res
    /\ sessionId_of (json res) =
       match body req with
       | Some b =>
           match validate Date_parse b with
           | Normal (inr _) =>
               Some (utf16 "session_" ++ numberToString (Date_now env 0%nat)
                       ++ utf16 "_" ++ Math_random_toString36 env)%list
           | Normal (inl _) | Throw _ => None
           end
       | None => None
       end.
Proof.
  unfold post_sessions, post_sessions_start.
  destruct (body req) as [b|]; [|eexists; split; reflexivity].
  destruct (validate Date_parse b) as [[msg|[startDate endDate]]|err];
    [eexists; split; reflexivity| |eexists; split; reflexivity].
  cbn [advance].
  destruct (compress env _); cbn [after_compression advance];
    [|eexists; split; reflexivity].
  destruct (extractAudio env _); cbn [after_extraction advance];
    [|eexists; split; reflexivity].
  destruct (save env _); cbn [after_save]; eexists; split; reflexivity.
Qed.

(** X5: on an input that satisfies every other rule, an end that is not
    later than the start, the same instant included, is rejected with
    "endTime must be after startTime"; an end one millisecond after the
    start is accepted. *)
Theorem zero_length_session_rejected (env : Env) (b : ReqBody) (s e : Z) :
  (forall r, r <> EndAfterStart -> satisfied Date_parse b r = true) ->
  new_Date Date_parse (startTime b) = Normal (Some s) ->
  new_Date Date_parse (endTime b) = Normal (Some e) ->
  (e <= s ->
   validate Date_parse b = Normal (inl "endTime must be after startTime")
   /\ post_sessions Date_parse env {| body := Some b |} =
      Responded
        {| status := 400; json := ErrorOnly "endTime must be after startTime" |})
  /\ (e = s + 1 -> validate Date_parse b = Normal (inr (Some s, Some e))).
Proof.
  intros Hother Hs He. split.
  - intro Hle.
    assert (Hval : validate Date_parse b =
                   Normal (inl (reason EndAfterStart))).
    { apply rejected_when_first_violated.
      - cbn [satisfied]. rewrite Hs, He. apply Z.ltb_ge. exact Hle.
      - intros r' Hr. apply Hother. intros ->. cbn [rank] in Hr. lia.
      - right. unfold conversion_fault. rewrite Hs, He. reflexivity. }
    split; [exact Hval|].
    destruct (rejected_at_start Date_parse env b _ Hval) as (_ & Hp & _).
    exact Hp.
  - intro Hd.
    replace (Some s) with (date_built (new_Date Date_parse (startTime b)))
      by (rewrite Hs; reflexivity).
    replace (Some e) with (date_built (new_Date Date_parse (endTime b)))
      by (rewrite He; reflexivity).
    apply accepted_when_all_satisfied.
    intro r. destruct r; try (apply Hother; discriminate).
    cbn [satisfied]. rewrite Hs, He. apply Z.ltb_lt. lia.
Qed.

(** X6: the reason "userId must be a non-empty string" is given exactly
    when the three fields are truthy and the userId is either no text (a
    number, a boolean, an object, an array) or text made of white space
    only; the times are then not looked at. *)
Theorem userId_reason_iff (b : ReqBody) :
  validate Date_parse b = Normal (inl "userId must be a non-empty string") <->
  truthy (userId b) = true /\ truthy (startTime b) = true
  /\ truthy (endTime b) = true
  /\ (typeof (userId b) <> "string"
      \/ exists u, userId b = JsStr u /\ forallb isWhiteSpace u = true).
Proof.
  assert (Hrule : satisfied Date_parse b UserIdText = false <->
            (typeof (userId b) <> "string"
             \/ exists u, userId b = JsStr u /\ forallb isWhiteSpace u = true)).
  { cbn [satisfied].
    destruct (userId b) as [| |x|x|u|x]; cbn [typeof];
      try (split; [intros _; left; discriminate|reflexivity]).
    split.
    - intro H. right. exists u. split; [reflexivity|].
      apply trim_nil_iff. destruct (trim u); [reflexivity|discriminate H].
    - intros [H|(u' & [= <-] & H)]; [contradiction H; reflexivity|].
      apply trim_nil_iff in H. rewrite H. reflexivity. }
  assert (Hpres : satisfied Date_parse b FieldsPresent = true <->
            truthy (userId b) = true /\ truthy (startTime b) = true
            /\ truthy (endTime b) = true).
  { cbn [satisfied]. rewrite !Bool.andb_true_iff. tauto. }
  split.
  - intro Hv.
    destruct (validate_cases Date_parse b) as [Hn|(err & Ht & _)];
      [|rewrite Ht in Hv; discriminate Hv].
    rewrite Hn in Hv. injection Hv as Hv. unfold spec_validate in Hv.
    destruct (first_violated Date_parse b) as [r|] eqn:Hf; [|discriminate Hv].
    injection Hv as Hv.
    apply (reason_injective r UserIdText) in Hv. subst r.
    apply first_violated_spec in Hf. destruct Hf as [Hviol Hbefore].
    assert (H1 : satisfied Date_parse b FieldsPresent = true)
      by (apply Hbefore; cbn [rank]; lia).
    apply Hpres in H1. apply Hrule in Hviol. tauto.
  - intros (H1 & H2 & H3 & H4).
    apply (rejected_when_first_violated Date_parse b UserIdText).
    + apply Hrule. exact H4.
    + intros r' Hr. destruct r'; cbn [rank] in Hr; try lia.
      apply Hpres. tauto.
    + left. cbn [rank]. lia.
Qed.

End ExecutionProperties.

(** ** Properties of the application *)

Section AppProperties.

Variable Date_parse : JsString -> option Z.
Variable route_matches : JsString -> bool.
Variable env : Env.

Lemma strict_equal_spec (a b : JsString) :
  App.strict_equal a b = true <-> a = b.
Proof.
  revert b. induction a as [|x a IH]; intros [|y b]; cbn [App.strict_equal];
    try (split; [reflexivity|reflexivity]); try (split; discriminate).
  rewrite Bool.andb_true_iff, N.eqb_eq, IH.
  split; [intros [-> ->]; reflexivity|intros [= -> ->]; split; reflexivity].
Qed.

(** The status of the session handler is 201, 400 or 500, and 201 only
    when the session was persisted. *)
Lemma post_sessions_status (req : Request) :
  exists res,
    post_sessions Date_parse env req = Responded res
    /\ In (status res) [201; 400; 500]
    /\ (status res = 201 -> outcome Date_parse env req = Persisted).
Proof.
  unfold post_sessions, outcome, post_sessions_start.
  destruct (body req) as [b|].
  2:{ eexists. split; [reflexivity|]. cbn. split; [tauto|discriminate]. }
  destruct (validate Date_parse b) as [[msg|[startDate endDate]]|err].
  3:{ eexists. split; [reflexivity|]. cbn. split; [tauto|discriminate]. }
  { eexists. split; [reflexivity|]. cbn. split; [tauto|discriminate]. }
  cbn [advance].
  destruct (compress env _); cbn [after_compression advance].
  2:{ eexists. split; [reflexivity|]. cbn. split; [tauto|discriminate]. }
  destruct (extractAudio env _); cbn [after_extraction advance].
  2:{ eexists. split; [reflexivity|]. cbn. split; [tauto|discriminate]. }
  destruct (save env _); cbn [after_save];
    eexists; (split; [reflexivity|]); cbn; split; try tauto; discriminate.
Qed.

(** X8: the application answers 404, with the body "Not found" and a
    message that names the method and the URL, exactly when the JSON
    parser did not fail on the payload and the request is not a POST
    whose URL the router matches against ['/sessions']; the session
    handler is then not run, whatever the parsed body holds.  No other
    request is answered with status 404. *)
Theorem not_found_iff (req : App.Incoming) :
  let answer_404 :=
    {| App.app_status := 404;
       App.app_json :=
         App.NotFound "Not found"
           (utf16 "Route " ++ App.method req ++ utf16 " "
              ++ App.originalUrl req ++ utf16 " not found")%list |} in
  let unrouted :=
    (exists b, App.payload req = App.Parsed b)
    /\ (App.method req <> utf16 "POST"
        \/ route_matches (App.originalUrl req) = false) in
  (App.serve Date_parse route_matches env req = App.Sent answer_404
   <-> unrouted)
  /\ (forall res,
        App.serve Date_parse route_matches env req = App.Sent res ->
        App.app_status res = 404 -> unrouted).
Proof.
  intros answer_404 unrouted. subst answer_404 unrouted.
  unfold App.serve, App.layers. cbn [fold_left App.run_layer].
  destruct (App.payload req) as [|b] eqn:Hp; cbn [App.run_layer].
  { split; [split|].
    - discriminate.
    - intros [[b Hb] _]. discriminate Hb.
    - intros res [= <-]. discriminate. }
  destruct (App.strict_equal (App.method req) (utf16 "POST")) eqn:Hm;
    cbn [andb].
  - apply strict_equal_spec in Hm.
    destruct (route_matches (App.originalUrl req)) eqn:Hr.
    + destruct (post_sessions_status {| body := b |})
        as (res0 & Hres & Hin & _).
      rewrite Hres. cbn [response_of App.run_layer].
      split; [split|].
      * discriminate.
      * intros [_ [Hne|Hf]]; [contradiction|discriminate Hf].
      * intros res [= <-]. cbn [App.app_status]. intro H404.
        rewrite H404 in Hin. cbn [In] in Hin.
        destruct Hin as [H|[H|[H|[]]]]; discriminate H.
    + split; [split|].
      * intros _. split; [exists b; reflexivity|right; reflexivity].
      * reflexivity.
      * intros _ _ _. split; [exists b; reflexivity|right; reflexivity].
  - assert (Hne : App.method req <> utf16 "POST").
    { intro Heq. apply strict_equal_spec in Heq. congruence. }
    split; [split|].
    + intros _. split; [exists b; reflexivity|left; exact Hne].
    + reflexivity.
    + intros _ _ _. split; [exists b; reflexivity|left; exact Hne].
Qed.

(** X9: a payload the JSON parser fails on is answered 500 by the
    error handling middleware, for every method and every URL, also
    those that would otherwise be answered 404; its message is not the
    one of the fault response of the session handler. *)
Theorem malformed_payload_is_internal_error (req : App.Incoming) :
  App.payload req = App.Malformed ->
  App.serve Date_parse route_matches env req =
    App.Sent
      {| App.app_status := 500;
         App.app_json :=
           App.Plain
             (ErrorWithMessage "Internal server error"
                "Something went wrong on the server") |}
  /\ App.serve Date_parse route_matches env req <>
     App.Sent
       {| App.app_status := status internal_server_error;
          App.app_json := App.Plain (json internal_server_error) |}.
Proof.
  intro Hp.
  unfold App.serve, App.layers. cbn [fold_left App.run_layer].
  rewrite Hp. split; [reflexivity|discriminate].
Qed.

(** X10: a POST whose URL the router matches and whose payload was
    parsed is answered by the session handler, run on the body the
    parser left, with the status and body of its response unchanged. *)
Theorem routed_request_reaches_handler (req : App.Incoming) (b : option ReqBody) :
  App.method req = utf16 "POST" ->
  route_matches (App.originalUrl req) = true ->
  App.payload req = App.Parsed b ->
  exists res,
    post_sessions Date_parse env {| body := b |} = Responded res
    /\ App.serve Date_parse route_matches env req =
       App.Sent {| App.app_status := status res;
                   App.app_json := App.Plain (json res) |}.
Proof.
  intros Hm Hr Hp.
  destruct (post_sessions_status {| body := b |}) as (res & Hres & _).
  exists res. split; [exact Hres|].
  unfold App.serve, App.layers. cbn [fold_left App.run_layer].
  rewrite Hp. cbn [App.run_layer]. rewrite Hm, Hr.
  replace (App.strict_equal (utf16 "POST") (utf16 "POST")) with true
    by reflexivity.
  cbn [andb]. rewrite Hres. reflexivity.
Qed.

(** X11: the application answers every request, with status 201, 400,
    404 or 500, and never leaves one to the default handler of the
    framework; it answers 201 only to a matched POST whose session was
    persisted. *)
Theorem app_always_answers (req : App.Incoming) :
  exists res,
    App.serve Date_parse route_matches env req = App.Sent res
    /\ In (App.app_status res) [201; 400; 404; 500]
    /\ (App.app_status res = 201 ->
        App.method req = utf16 "POST"
        /\ route_matches (App.originalUrl req) = true
        /\ exists b,
             App.payload req = App.Parsed b
             /\ outcome Date_parse env {| body := b |} = Persisted).
Proof.
  unfold App.serve, App.layers. cbn [fold_left App.run_layer].
  destruct (App.payload req) as [|b] eqn:Hp; cbn [App.run_layer].
  { eexists. split; [reflexivity|]. cbn. split; [tauto|discriminate]. }
  destruct (App.strict_equal (App.method req) (utf16 "POST")) eqn:Hm;
    cbn [andb].
  2:{ eexists. split; [reflexivity|]. cbn. split; [tauto|discriminate]. }
  destruct (route_matches (App.originalUrl req)) eqn:Hr.
  2:{ eexists. split; [reflexivity|]. cbn. split; [tauto|discriminate]. }
  destruct (post_sessions_status {| body := b |}) as (res & Hres & Hin & H201).
  rewrite Hres. cbn [response_of].
  eexists. split; [reflexivity|]. cbn [App.app_status].
  split.
  - cbn [In] in Hin |- *. tauto.
  - intro Hst. split; [apply strict_equal_spec; exact Hm|].
    split; [reflexivity|]. exists b. split; [reflexivity|].
    apply H201. exact Hst.
Qed.

End AppProperties.

(** ** The concrete scenarios *)

Import Scenario.

(** The scenarios of the specification, evaluated. *)
Example scenario_alice :
  validate Iso.parse alice =
    Normal (inr (Some 1704103200000, Some 1704110400000))
  /\ option_map (fun d => flags d)
       (record_of (post_sessions Iso.parse env_ok (post alice)))
     = Some (true, true)
  /\ outcome Iso.parse env_ok (post alice) = Persisted.
Proof. repeat split. Qed.

Example scenario_end_before_start :
  validate Iso.parse end_before_start =
    Normal (inl "endTime must be after startTime").
Proof. reflexivity. Qed.

Example scenario_nine_hours :
  validate Iso.parse nine_hours =
    Normal (inl "Session duration cannot exceed 8 hours").
Proof. reflexivity. Qed.

Example scenario_blank_userId :
  validate Iso.parse
    (input "   " "2024-01-01T10:00:00Z" "2024-01-01T12:00:00Z")
  = Normal (inl "userId must be a non-empty string").
Proof. reflexivity. Qed.

Example scenario_faulty_userId :
  validate Iso.parse
    {| userId := JsObj (Throw "TypeError");
       startTime := JsStr (utf16 "2024-01-01T10:00:00Z");
       endTime := JsStr (utf16 "2024-01-01T12:00:00Z") |}
  = Normal (inl "userId must be a non-empty string").
Proof. reflexivity. Qed.

Example scenario_faulty_endTime :
  post_sessions Iso.parse env_ok (post invalid_start_faulty_end)
  = Responded internal_server_error.
Proof. reflexivity. Qed.

Example scenario_no_body :
  post_sessions Iso.parse env_ok no_body = Responded internal_server_error.
Proof. reflexivity. Qed.

(** C3 as stated fails: for the input with the empty userId the reason is
    not the one of the userId rule, the presence test comes first. *)
Lemma empty_userId_reason_is_not_userId_rule :
  validate Iso.parse empty_userId <>
    Normal (inl "userId must be a non-empty string")
  /\ post_sessions Iso.parse env_ok (post empty_userId) <>
     Responded
       {| status := 400; json := ErrorOnly "userId must be a non-empty string" |}.
Proof.
  split; vm_compute; intro H; discriminate H.
Qed.

(** C9 as stated fails: an unexpected fault is answered with the same
    status as a processing failure and as a persistence failure. *)
Lemma fault_status_not_distinct :
  outcome Iso.parse env_ok no_body = InternalFailure
  /\ outcome Iso.parse env_compress_fails (post alice) = ProcessingFailed
  /\ outcome Iso.parse env_save_fails (post alice) = PersistenceFailed
  /\ ~ (option_map status_category
          (response_of (post_sessions Iso.parse env_ok no_body))
        <> option_map status_category
             (response_of
                (post_sessions Iso.parse env_compress_fails (post alice))))
  /\ ~ (option_map status_category
          (response_of (post_sessions Iso.parse env_ok no_body))
        <> option_map status_category
             (response_of
                (post_sessions Iso.parse env_save_fails (post alice)))).
Proof.
  repeat split; try reflexivity; intro H; apply H; reflexivity.
Qed.

Lemma valid_input_is_persisted_witness :
  exists sessionId databaseId d,
    post_sessions Iso.parse env_ok (post alice) =
      Responded
        {| status := 201;
           json :=
             Created "Session created, processed, and saved successfully"
               sessionId databaseId
               {| Session._id := databaseId; Session.doc := d |} |}
    /\ Session.compressed (Session.media d) = true
    /\ Session.audioExtracted (Session.media d) = true
    /\ Session.userId d = trim (utf16 "alice")
    /\ Session.startTime d = Some 1704103200000
    /\ Session.endTime d = Some 1704110400000
    /\ save env_ok d = Fulfilled databaseId
    /\ outcome Iso.parse env_ok (post alice) = Persisted.
Proof.
  apply (valid_input_is_persisted Iso.parse env_ok alice
           (utf16 "alice") (utf16 "2024-01-01T10:00:00Z")
           (utf16 "2024-01-01T12:00:00Z") 1704103200000 1704110400000).
  - reflexivity.
  - reflexivity.
  - vm_compute. intro H. discriminate H.
  - reflexivity.
  - reflexivity.
  - reflexivity.
  - reflexivity.
  - lia.
  - intro sessionId. reflexivity.
  - intro sessionId. reflexivity.
  - intro d. reflexivity.
Defined.



Lemma eight_hours_boundary_witness :
  (validate Iso.parse eight_hours =
     Normal (inr (Some 1704103200000, Some 1704132000000))
   /\ exists sessionId sessionData,
        post_sessions_start Iso.parse env_ok (post eight_hours) =
        AwaitCompression sessionId sessionData)
  /\ (validate Iso.parse eight_hours_and_1ms =
        Normal (inl "Session duration cannot exceed 8 hours")
      /\ post_sessions Iso.parse env_ok (post eight_hours_and_1ms) =
         Responded
           {| status := 400;
              json := ErrorOnly "Session duration cannot exceed 8 hours" |}).
Proof.
  split.
  - destruct (eight_hours_boundary Iso.parse env_ok eight_hours
                1704103200000 1704132000000) as (_ & H & _).
    + intros r Hr. destruct r; try reflexivity; exfalso; apply Hr; reflexivity.
    + reflexivity.
    + reflexivity.
    + apply H. reflexivity.
  - destruct (eight_hours_boundary Iso.parse env_ok eight_hours_and_1ms
                1704103200000 1704132000001) as (_ & _ & H).
    + intros r Hr. destruct r; try reflexivity; exfalso; apply Hr; reflexivity.
    + reflexivity.
    + reflexivity.
    + apply H. reflexivity.
Defined.

Lemma audio_extracted_implies_compressed_witness :
  exists d,
    record_of (post_sessions Iso.parse env_ok (post alice)) = Some d
    /\ Session.audioExtracted (Session.media d) = true
    /\ Session.compressed (Session.media d) = true.
Proof.
  eexists. split; [reflexivity|]. split; [reflexivity|].
  destruct (audio_extracted_implies_compressed Iso.parse env_ok (post alice))
    as (Hinv & Hexec & _).
  apply (Hinv (post_sessions Iso.parse env_ok (post alice))).
  - apply Hexec. vm_compute. tauto.
  - reflexivity.
  - reflexivity.
Defined.

Lemma stage_failure_keeps_partial_record_witness :
  (exists d,
     post_sessions Iso.parse env_compress_fails (post alice) =
       Responded
         {| status := 500;
            json :=
              ErrorWithSession "Media processing failed"
                (utf16 "session_1704190000000_0.4fzyo82mvyr") d |}
     /\ flags d = (false, false)
     /\ existsb extraction_runs
          (execution Iso.parse env_compress_fails (post alice)) = false
     /\ existsb store_write
          (execution Iso.parse env_compress_fails (post alice)) = false)
  /\ (exists d',
        post_sessions Iso.parse env_extract_fails (post alice) =
          Responded
            {| status := 500;
               json :=
                 ErrorWithSession "Media processing failed"
                   (utf16 "session_1704190000000_0.4fzyo82mvyr") d' |}
        /\ flags d' = (true, false)
        /\ existsb store_write
             (execution Iso.parse env_extract_fails (post alice)) = false).
Proof.
  split.
  - eexists.
    destruct (stage_failure_keeps_partial_record Iso.parse env_compress_fails
                (post alice) _ _ eq_refl) as [H _].
    destruct (H "ffmpeg exited with code 1" eq_refl) as (H1 & H2 & H3 & H4 & _).
    split; [exact H1|]. split; [exact H2|]. split; [exact H3|exact H4].
  - destruct (stage_failure_keeps_partial_record Iso.parse env_extract_fails
                (post alice) _ _ eq_refl) as [_ H].
    destruct (H true "ffmpeg exited with code 1" eq_refl eq_refl)
      as (d' & H1 & H2 & _ & H4 & _).
    exists d'. split; [exact H1|]. split; [exact H2|exact H4].
Defined.



Lemma save_failure_reports_processed_record_witness :
  exists res d',
    post_sessions Iso.parse env_save_fails (post alice) = Responded res
    /\ status res = 500
    /\ json res =
       ErrorWithSession "Failed to save session to database"
         (utf16 "session_1704190000000_0.4fzyo82mvyr") d'
    /\ Session.compressed (Session.media d') = true
    /\ Session.audioExtracted (Session.media d') = true
    /\ databaseId_of (json res) = None.
Proof.
  destruct (save_failure_reports_processed_record Iso.parse env_save_fails
              (post alice) _ _ eq_refl eq_refl eq_refl eq_refl)
    as (res & d' & H1 & H2 & H3 & H4 & H5 & _ & H7 & _).
  exists res, d'.
  split; [exact H1|]. split; [exact H2|]. split; [exact H3|].
  split; [exact H4|]. split; [exact H5|exact H7].
Defined.

Lemma falsy_field_is_missing_witness :
  post_sessions Iso.parse env_ok (post zero_startTime) =
    Responded
      {| status := 400;
         json := ErrorOnly "Missing required fields: userId, startTime, endTime" |}.
Proof.
  apply (falsy_field_is_missing Iso.parse env_ok zero_startTime).
  right. left. reflexivity.
Defined.

(** ** The further properties on concrete inputs *)

Import AppScenario.

Lemma source_stages_never_fail_witness :
  outcome Iso.parse env_save_fails (post alice) <> ProcessingFailed
  /\ In (AwaitSave (utf16 "session_1704190000000_0.4fzyo82mvyr")
          (set_audioExtracted
             (set_compressed
                {| Session.userId := utf16 "alice";
                   Session.startTime := Some 1704103200000;
                   Session.endTime := Some 1704110400000;
                   Session.media := Session.media_default;
                   Session.createdAt := 1704190000001 |})))
       (execution Iso.parse env_save_fails (post alice)).
Proof.
  destruct (source_stages_never_fail Iso.parse env_save_fails (post alice))
    as (H1 & _ & H3).
  - intro sessionId. reflexivity.
  - intro sessionId. reflexivity.
  - split; [exact H1|]. apply H3. reflexivity.
Defined.

Lemma held_record_is_valid_witness :
  exists d b s e,
    record_of (post_sessions Iso.parse env_save_fails (post padded_alice))
      = Some d
    /\ body (post padded_alice) = Some b
    /\ Session.userId d = trim (stringValue (userId b))
    /\ Session.userId d <> []
    /\ trim (Session.userId d) = Session.userId d
    /\ starts_clean (Session.userId d)
    /\ starts_clean (rev (Session.userId d))
    /\ Session.startTime d = Some s
    /\ Session.endTime d = Some e
    /\ s < e /\ e - s <= 28800000
    /\ Session.createdAt d = Date_now env_save_fails 1%nat.
Proof.
  eexists.
  destruct (held_record_is_valid Iso.parse env_save_fails (post padded_alice)
              (post_sessions Iso.parse env_save_fails (post padded_alice))
              _
              (reachable_advance _ _ _ _
                 (reachable_advance _ _ _ _
                    (reachable_advance _ _ _ _ (reachable_start _ _ _))))
              eq_refl)
    as (b & s & e & H).
  exists b, s, e. split; [reflexivity|exact H].
Defined.

Lemma saved_record_meets_schema_witness :
  SessionSchema_required
    (set_audioExtracted
       (set_compressed
          {| Session.userId := utf16 "alice";
             Session.startTime := Some 1704103200000;
             Session.endTime := Some 1704110400000;
             Session.media := Session.media_default;
             Session.createdAt := 1704190000001 |})) = true
  /\ Session.media
       (set_audioExtracted
          (set_compressed
             {| Session.userId := utf16 "alice";
                Session.startTime := Some 1704103200000;
                Session.endTime := Some 1704110400000;
                Session.media := Session.media_default;
                Session.createdAt := 1704190000001 |}))
     = {| Session.compressed := true; Session.audioExtracted := true |}.
Proof.
  apply (saved_record_meets_schema Iso.parse env_ok (post alice)
           (utf16 "session_1704190000000_0.4fzyo82mvyr")).
  exact (reachable_advance Iso.parse env_ok (post alice) _
           (reachable_advance Iso.parse env_ok (post alice) _
              (reachable_start Iso.parse env_ok (post alice)))).
Defined.

Lemma zero_length_session_rejected_witness :
  validate Iso.parse same_instant =
    Normal (inl "endTime must be after startTime")
  /\ post_sessions Iso.parse env_ok (post same_instant) =
     Responded
       {| status := 400; json := ErrorOnly "endTime must be after startTime" |}.
Proof.
  destruct (zero_length_session_rejected Iso.parse env_ok same_instant
              1704103200000 1704103200000) as [H _].
  - intros r Hr. destruct r; try reflexivity; exfalso; apply Hr; reflexivity.
  - reflexivity.
  - reflexivity.
  - apply H. lia.
Defined.

Lemma userId_reason_iff_witness :
  validate Iso.parse numeric_userId =
    Normal (inl "userId must be a non-empty string").
Proof.
  apply (userId_reason_iff Iso.parse numeric_userId).
  split; [reflexivity|]. split; [reflexivity|]. split; [reflexivity|].
  left. cbn. intro H. discriminate H.
Defined.

Lemma not_found_iff_witness :
  App.serve Iso.parse only_sessions env_ok get_sessions =
  App.Sent
    {| App.app_status := 404;
       App.app_json :=
         App.NotFound "Not found" (utf16 "Route GET /sessions not found") |}.
Proof.
  apply (proj1 (not_found_iff Iso.parse only_sessions env_ok get_sessions)).
  split.
  - exists (Some alice). reflexivity.
  - left. cbn. intro H. discriminate H.
Defined.

Lemma malformed_payload_is_internal_error_witness :
  App.serve Iso.parse only_sessions env_ok malformed_get =
  App.Sent
    {| App.app_status := 500;
       App.app_json :=
         App.Plain
           (ErrorWithMessage "Internal server error"
              "Something went wrong on the server") |}.
Proof.
  apply (malformed_payload_is_internal_error Iso.parse only_sessions env_ok
           malformed_get).
  reflexivity.
Defined.

Lemma routed_request_reaches_handler_witness :
  exists res,
    post_sessions Iso.parse env_ok {| body := Some alice |} = Responded res
    /\ App.serve Iso.parse only_sessions env_ok post_alice =
       App.Sent {| App.app_status := status res;
                   App.app_json := App.Plain (json res) |}.
Proof.
  apply (routed_request_reaches_handler Iso.parse only_sessions env_ok
           post_alice (Some alice)); reflexivity.
Defined.
